(** * Meme Coin Analyzer API: the Python client examples

    A shallow embedding of [backend/docs/examples/python-examples.py]: the
    REST wrapper [MemeCoinAnalyzerAPI], the [WebSocketClient] and the
    [retry_with_backoff] helper of [error_handling_example].

    The client is glue code around three libraries: [requests], [json] and
    [websocket].  The libraries are not part of the repository; what the
    client needs from them is collected in the class [Runtime] below, and
    every general theorem holds for every instance of it.  Python values
    are an inductive type, Python exceptions are values of [exn], and a
    method is a function from the object and the outside world to a result,
    the new object, the new world and the list of effects it performed. *)

From Stdlib Require Import ZArith String Ascii List Bool PrimFloat.
From stdpp Require Import gmap strings pretty.

Set Warnings "-register-all".
Local Open Scope Z_scope.

(** ** Python values *)

(** The values that travel through the client: what [json.loads] can
    produce and what [json.dumps] accepts.  A [dict] keeps its items in
    insertion order; its keys are strings. *)
Inductive pyval :=
| PNone
| PBool (b : bool)
| PInt (n : Z)
| PFloat (x : float)
| PStr (s : string)
| PList (xs : list pyval)
| PDict (items : list (string * pyval)).

(** [bool(v)]. *)
Definition py_truthy (v : pyval) : bool :=
  match v with
  | PNone => false
  | PBool b => b
  | PInt n => negb (n =? 0)
  | PFloat x => negb (PrimFloat.eqb x 0%float)
  | PStr s => negb (String.eqb s EmptyString)
  | PList xs => match xs with [] => false | _ :: _ => true end
  | PDict items => match items with [] => false | _ :: _ => true end
  end.

(** [hash(v)] succeeds: lists and dicts are unhashable. *)
Definition py_hashable (v : pyval) : bool :=
  match v with
  | PList _ | PDict _ => false
  | _ => true
  end.

(** [d[k]] on the items of a dict. *)
Fixpoint dict_lookup (k : string) (items : list (string * pyval)) : option pyval :=
  match items with
  | [] => None
  | (k', v) :: rest => if String.eqb k k' then Some v else dict_lookup k rest
  end.

(** [k in d]. *)
Definition dict_contains (k : string) (items : list (string * pyval)) : bool :=
  match dict_lookup k items with Some _ => true | None => false end.

(** [d[k] = v]: an existing key keeps its place, a new key goes last. *)
Fixpoint dict_setitem (k : string) (v : pyval) (items : list (string * pyval))
  : list (string * pyval) :=
  match items with
  | [] => [(k, v)]
  | (k', v') :: rest =>
      if String.eqb k k' then (k, v) :: rest else (k', v') :: dict_setitem k v rest
  end.

(** ** The objects of the libraries *)

(** [requests.Response], as far as the client reads it. *)
Record Response := {
  status_code : Z;
  reason : string;
  url : string;
  text : string
}.

(** One call [session.request(method, url, **kwargs)], together with the
    headers the session holds when the call is made. *)
Record Request := {
  req_method : string;
  req_url : string;
  req_kwargs : list (string * pyval);
  req_headers : gmap string string
}.

(** [websocket.WebSocketApp], created by [connect] for one URL. *)
Record WebSocketApp := { app_url : string }.

(** A Python callable handed to the client (a message handler, the
    function to retry), known by its name. *)
Inductive callable := Callable (name : string).

(** ** Exceptions *)

(** The exceptions the client meets.  [HTTPError], carrying its response,
    and [RequestsJSONDecodeError], the error of [Response.json], are
    [requests.exceptions.RequestException]s, and [RequestException] stands
    for the other ones (connection errors, timeouts);
    [RequestsJSONDecodeError] is a [json.JSONDecodeError] as well.  The two
    [TypeError]s are those of hashing and of subscripting.  An exception
    with a message carries what [str] gives for it. *)
Inductive exn :=
| HTTPError (msg : string) (response : Response)
| RequestsJSONDecodeError (msg : string)
| RequestException (msg : string)
| JSONDecodeError (msg : string)
| AttributeError (obj : pyval) (attr : string)
| TypeError_unhashable (obj : pyval)
| TypeError_subscript (obj : pyval) (key : string)
| KeyError (key : pyval)
| ValueError (msg : string)
| OverflowError (msg : string)
| RecursionError (msg : string)
| OtherException (cls msg : string)
| OtherBaseException (cls msg : string).

(** [isinstance(e, Exception)]: everything but [KeyboardInterrupt],
    [SystemExit] and the like. *)
Definition is_Exception (e : exn) : bool :=
  match e with
  | OtherBaseException _ _ => false
  | _ => true
  end.

(** ** Effects *)

(** What a method does to the outside, in order.  A request and a call
    are recorded with what came back. *)
Inductive event :=
| EPrint (line : string)
| ERequest (rq : Request) (answer : Response + exn)
| ESend (app : WebSocketApp) (payload : string)
| ECall (f : callable) (args : list pyval) (outcome : pyval + exn)
| ESleep (seconds : Z).

(** The payloads handed to [ws.send]. *)
Definition sent (tr : list event) : list string :=
  flat_map (fun ev => match ev with ESend _ p => [p] | _ => [] end) tr.

(** The calls made, with their arguments. *)
Definition calls (tr : list event) : list (callable * list pyval) :=
  flat_map (fun ev => match ev with ECall f args _ => [(f, args)] | _ => [] end) tr.

(** The requests issued. *)
Definition requests (tr : list event) : list Request :=
  flat_map (fun ev => match ev with ERequest rq _ => [rq] | _ => [] end) tr.

(** The durations passed to [time.sleep]. *)
Definition sleeps (tr : list event) : list Z :=
  flat_map (fun ev => match ev with ESleep d => [d] | _ => [] end) tr.

(** ** The libraries and the outside world *)

(** - [json_loads s] is [json.loads(s)] on a text: the value, or the
      exception raised, a [JSONDecodeError] for a text the decoder rejects
      and, for one, a [RecursionError] for a text nested too deep for it;
      the decoder accepts the texts [NaN], [Infinity] and [-Infinity], for
      which it returns floats;
    - [json_dumps v] is [json.dumps(v)];
    - [py_repr v] is [repr(v)], used for floats, lists and dicts;
    - [default_headers] are the headers of a fresh [requests.Session];
    - [session_request] is the transport: the answer of the network to a
      request, a [Response] or an exception;
    - [call f args] runs a callable of the caller;
    - [time_sleep d] lets [d] seconds pass. *)
Class Runtime := {
  World : Type;
  json_loads : string -> pyval + exn;
  json_dumps : pyval -> string;
  py_repr : pyval -> string;
  default_headers : gmap string string;
  session_request : Request -> World -> (Response + exn) * World;
  call : callable -> list pyval -> World -> (pyval + exn) * World;
  time_sleep : Z -> World -> World
}.

(** ** Methods as state transformers *)

Inductive result (A : Type) :=
| Returns (a : A)
| Raises (e : exn).
Arguments Returns {A} a.
Arguments Raises {A} e.

Record run `{Runtime} (S A : Type) := Run {
  res : result A;
  state : S;
  world : World;
  out : list event
}.
Arguments Run {_ S A} res state world out.
Arguments res {_ S A} r.
Arguments state {_ S A} r.
Arguments world {_ S A} r.
Arguments out {_ S A} r.

Definition prog `{Runtime} (S A : Type) : Type := S -> World -> run S A.

Section Programs.
Context `{Runtime} {S : Type}.

Definition ret {A} (a : A) : prog S A :=
  fun self w => Run (Returns a) self w [].

Definition raise {A} (e : exn) : prog S A :=
  fun self w => Run (Raises e) self w [].

Definition bind {A B} (m : prog S A) (k : A -> prog S B) : prog S B :=
  fun self w =>
    match m self w with
    | Run (Returns a) self1 w1 out1 =>
        match k a self1 w1 with
        | Run r self2 w2 out2 => Run r self2 w2 (out1 ++ out2)
        end
    | Run (Raises e) self1 w1 out1 => Run (Raises e) self1 w1 out1
    end.

(** [try: m  except ... as e: handler e].  The handler decides by the
    class of [e] whether a clause applies, and lets [e] through otherwise. *)
Definition try_except {A} (m : prog S A) (handler : exn -> prog S A) : prog S A :=
  fun self w =>
    match m self w with
    | Run (Returns a) self1 w1 out1 => Run (Returns a) self1 w1 out1
    | Run (Raises e) self1 w1 out1 =>
        match handler e self1 w1 with
        | Run r self2 w2 out2 => Run r self2 w2 (out1 ++ out2)
        end
    end.

Definition get_self : prog S S :=
  fun self w => Run (Returns self) self w [].

Definition set_self (self' : S) : prog S unit :=
  fun _ w => Run (Returns tt) self' w [].

Definition emit (ev : event) : prog S unit :=
  fun self w => Run (Returns tt) self w [ev].

Definition print (line : string) : prog S unit := emit (EPrint line).

Definition of_result {A} (r : result A) : prog S A :=
  fun self w => Run r self w [].

End Programs.

Notation "'let!' x ':=' m 'in' k" := (bind m (fun x => k))
  (at level 10, x name, m at level 100, k at level 200).
Notation "'do!' m 'in' k" := (bind m (fun _ => k))
  (at level 10, m at level 100, k at level 200).

(** ** Python and library operations *)

(** The longest and the shortest duration, in whole seconds, that fit the
    64-bit count of nanoseconds of CPython's clock: [INT64_MAX / 10^9] and
    [INT64_MIN / 10^9], divided as C divides. *)
Definition sleep_max : Z := Z.quot (2 ^ 63 - 1) (10 ^ 9).

Definition sleep_min : Z := Z.quot (- 2 ^ 63) (10 ^ 9).

(** The exception [time.sleep] raises for a duration in whole seconds, if
    any.  CPython first converts the duration to nanoseconds and raises
    [OverflowError] when they do not fit, then refuses a negative duration
    with a [ValueError]. *)
Definition sleep_refused (seconds : Z) : option exn :=
  if (seconds <? sleep_min) || (sleep_max <? seconds) then
    Some (OverflowError "timestamp too large to convert to C _PyTime_t")
  else if seconds <? 0 then Some (ValueError "sleep length must be non-negative")
  else None.

Section Library.
Context `{Runtime}.

(** [str(v)], as an f-string formats [v]. *)
Definition py_str (v : pyval) : string :=
  match v with
  | PNone => "None"
  | PBool true => "True"
  | PBool false => "False"
  | PInt n => pretty n
  | PStr s => s
  | _ => py_repr v
  end.

(** Looking up the method [get] of [v]: only a dict has one.  The items
    of the dict are returned, for [dict_get] and [dict_contains]. *)
Definition dict_of (v : pyval) : result (list (string * pyval)) :=
  match v with
  | PDict items => Returns items
  | _ => Raises (AttributeError v "get")
  end.

(** [d.get(k)]: the value, or [None]. *)
Definition dict_get (k : string) (items : list (string * pyval)) : pyval :=
  match dict_lookup k items with
  | Some v => v
  | None => PNone
  end.

(** [v[k]] for a string [k]: a dict answers or raises [KeyError]; a list
    and a string take integer indices only, the other values cannot be
    subscripted, both a [TypeError]. *)
Definition py_getitem (v : pyval) (k : string) : result pyval :=
  match v with
  | PDict items =>
      match dict_lookup k items with
      | Some x => Returns x
      | None => Raises (KeyError (PStr k))
      end
  | _ => Raises (TypeError_subscript v k)
  end.

(** [v in handlers] for a dict with string keys: the hash of [v] is taken
    first, then only an equal string is found. *)
Definition py_in_handlers (v : pyval) (handlers : gmap string callable) : result bool :=
  match v with
  | PStr s => Returns (match handlers !! s with Some _ => true | None => false end)
  | PList _ | PDict _ => Raises (TypeError_unhashable v)
  | _ => Returns false
  end.

(** [handlers[v]]: the hash of [v] first, then a [KeyError] for a key that
    is not there. *)
Definition py_handlers_getitem (v : pyval) (handlers : gmap string callable)
  : result callable :=
  match v with
  | PStr s =>
      match handlers !! s with
      | Some handler => Returns handler
      | None => Raises (KeyError v)
      end
  | PList _ | PDict _ => Raises (TypeError_unhashable v)
  | _ => Raises (KeyError v)
  end.

(** The message [Response.raise_for_status()] builds: empty unless the
    status is a client error (400 to 499) or a server error (500 to 599). *)
Definition http_error_msg (r : Response) : string :=
  if (400 <=? status_code r) && (status_code r <? 500) then
    pretty (status_code r) +:+ " Client Error: " +:+ reason r +:+ " for url: " +:+ url r
  else if (500 <=? status_code r) && (status_code r <? 600) then
    pretty (status_code r) +:+ " Server Error: " +:+ reason r +:+ " for url: " +:+ url r
  else EmptyString.

(** [Response.raise_for_status()] of requests: an [HTTPError] when there
    is a message, nothing otherwise. *)
Definition raise_for_status {S} (r : Response) : prog S unit :=
  if String.eqb (http_error_msg r) EmptyString then ret tt
  else raise (HTTPError (http_error_msg r) r).

(** [Response.json()] of requests (2.27 and later): [json.loads] on the
    body, whose text is taken to be [text]; a [JSONDecodeError] is raised
    again as requests' own, any other exception of the decoder passes. *)
Definition response_json {S} (r : Response) : prog S pyval :=
  match json_loads (text r) with
  | inl v => ret v
  | inr (JSONDecodeError msg) => raise (RequestsJSONDecodeError msg)
  | inr e => raise e
  end.

(** [json.loads(message)] on a text frame. *)
Definition loads {S} (message : string) : prog S pyval :=
  match json_loads message with
  | inl v => ret v
  | inr e => raise e
  end.

(** Calling [f] on [args], for a callable of the caller.  The call is one
    effect, recorded with its outcome; what the callable does while it
    runs is inside that effect.  A callable that is a closure over the
    client and changes it is not modelled: the client after the call is
    taken to be the client before it. *)
Definition invoke {S} (f : callable) (args : list pyval) : prog S pyval :=
  fun self w =>
    let '(outcome, w') := call f args w in
    Run (match outcome with inl v => Returns v | inr e => Raises e end)
        self w' [ECall f args outcome].

(** [time.sleep(seconds)] for a whole number of seconds: refused with
    the exception of [sleep_refused], or slept.  Durations that are floats
    are outside the model. *)
Definition sleep {S} (seconds : Z) : prog S unit :=
  match sleep_refused seconds with
  | Some e => raise e
  | None => fun self w => Run (Returns tt) self (time_sleep seconds w) [ESleep seconds]
  end.

End Library.

(** ** class APIConfig *)

Record APIConfig := {
  base_url : string;
  ws_url : string;
  timeout : Z
}.

(** [APIConfig()], the defaults of the dataclass. *)
Definition APIConfig_default : APIConfig :=
  {| base_url := "http://localhost:3001";
     ws_url := "ws://localhost:3001/ws";
     timeout := 10 |}.

(** ** class MemeCoinAnalyzerAPI *)

(** [requests.Session]: its headers, and the [timeout] attribute the
    client sets on it. *)
Record Session := {
  headers : gmap string string;
  session_timeout : Z
}.

Record MemeCoinAnalyzerAPI := {
  config : APIConfig;
  token : pyval;
  session : Session
}.

Definition with_token (t : pyval) (self : MemeCoinAnalyzerAPI) : MemeCoinAnalyzerAPI :=
  {| config := config self; token := t; session := session self |}.

Definition with_headers (f : gmap string string -> gmap string string)
  (self : MemeCoinAnalyzerAPI) : MemeCoinAnalyzerAPI :=
  {| config := config self;
     token := token self;
     session := {| headers := f (headers (session self));
                   session_timeout := session_timeout (session self) |} |}.

(** The request the session of [self] issues for a method, a URL and
    keyword arguments. *)
Definition session_rq (self : MemeCoinAnalyzerAPI) (method url : string)
  (kwargs : list (string * pyval)) : Request :=
  {| req_method := method; req_url := url; req_kwargs := kwargs;
     req_headers := headers (session self) |}.

Section MemeCoinAnalyzerAPI_methods.
Context `{Runtime}.

(** [self.session.request(method, url, **kwargs)]. *)
Definition Session_request (method url : string) (kwargs : list (string * pyval))
  : prog MemeCoinAnalyzerAPI Response :=
  fun self w =>
    let rq := session_rq self method url kwargs in
    let '(answer, w') := session_request rq w in
    Run (match answer with inl r => Returns r | inr e => Raises e end)
        self w' [ERequest rq answer].

Definition set_token (t : pyval) : prog MemeCoinAnalyzerAPI unit :=
  let! self := get_self in
  do! set_self (with_token t self) in
  let! self := get_self in
  set_self (with_headers (fun h => <["Authorization" := "Bearer " +:+ py_str t]> h) self).

(** [__init__]: every attribute is assigned, whatever the object held. *)
Definition MemeCoinAnalyzerAPI__init__ (cfg : option APIConfig) (t : pyval)
  : prog MemeCoinAnalyzerAPI unit :=
  let cfg := match cfg with Some c => c | None => APIConfig_default end in
  do! set_self {| config := cfg;
                  token := t;
                  session := {| headers := default_headers;
                                session_timeout := timeout cfg |} |} in
  let! self := get_self in
  do! set_self (with_headers
                  (fun h => <["User-Agent" := "MemeCoinAnalyzer-Python-Client/1.0"]>
                              (<["Content-Type" := "application/json"]> h)) self) in
  if py_truthy t then set_token t else ret tt.

Definition _make_request (method endpoint : string) (kwargs : list (string * pyval))
  : prog MemeCoinAnalyzerAPI pyval :=
  let! self := get_self in
  let url := base_url (config self) +:+ endpoint in
  try_except
    (let! response := Session_request method url kwargs in
     do! raise_for_status response in
     response_json response)
    (fun e =>
       match e with
       | HTTPError _ response =>
           do! print ("HTTP Error " +:+ pretty (status_code response) +:+ ": "
                      +:+ text response) in
           raise e
       | RequestsJSONDecodeError msg | RequestException msg =>
           do! print ("Request Error: " +:+ msg) in
           raise e
       | _ => raise e
       end).

(** The tail shared by [register] and [login]. *)
Definition store_token (result : pyval) : prog MemeCoinAnalyzerAPI pyval :=
  let! items := of_result (dict_of result) in
  do! (if py_truthy (dict_get "success" items) && dict_contains "data" items then
         let! data := of_result (py_getitem result "data") in
         let! t := of_result (py_getitem data "token") in
         set_token t
       else ret tt) in
  ret result.

Definition register (user_data : pyval) : prog MemeCoinAnalyzerAPI pyval :=
  let! result := _make_request "POST" "/api/v1/auth/register" [("json", user_data)] in
  store_token result.

Definition login (email password : string) : prog MemeCoinAnalyzerAPI pyval :=
  let! result := _make_request "POST" "/api/v1/auth/login"
                   [("json", PDict [("email", PStr email); ("password", PStr password)])] in
  store_token result.

Definition get_profile : prog MemeCoinAnalyzerAPI pyval :=
  _make_request "GET" "/api/v1/auth/profile" [].

Definition update_preferences (preferences : pyval) : prog MemeCoinAnalyzerAPI pyval :=
  _make_request "PUT" "/api/v1/auth/preferences" [("json", preferences)].

Definition get_coins (params : list (string * pyval)) : prog MemeCoinAnalyzerAPI pyval :=
  _make_request "GET" "/api/v1/coins" [("params", PDict params)].

Definition get_coin_by_id (coin_id : Z) : prog MemeCoinAnalyzerAPI pyval :=
  _make_request "GET" ("/api/v1/coins/" +:+ pretty coin_id) [].

Definition get_coin_by_address (address : string) : prog MemeCoinAnalyzerAPI pyval :=
  _make_request "GET" ("/api/v1/coins/address/" +:+ address) [].

Definition create_coin (coin_data : pyval) : prog MemeCoinAnalyzerAPI pyval :=
  _make_request "POST" "/api/v1/coins" [("json", coin_data)].

Definition search_coins (query : string) : prog MemeCoinAnalyzerAPI pyval :=
  _make_request "GET" "/api/v1/coins/search" [("params", PDict [("q", PStr query)])].

Definition get_price_history (coin_id : Z) (params : list (string * pyval))
  : prog MemeCoinAnalyzerAPI pyval :=
  _make_request "GET" ("/api/v1/coins/" +:+ pretty coin_id +:+ "/price-history")
    [("params", PDict params)].

Definition get_risk_assessment (coin_id : Z) : prog MemeCoinAnalyzerAPI pyval :=
  _make_request "GET" ("/api/v1/risk-assessment/" +:+ pretty coin_id) [].

Definition get_portfolio : prog MemeCoinAnalyzerAPI pyval :=
  _make_request "GET" "/api/v1/portfolio" [].

Definition add_to_portfolio (portfolio_item : pyval) : prog MemeCoinAnalyzerAPI pyval :=
  _make_request "POST" "/api/v1/portfolio" [("json", portfolio_item)].

Definition update_portfolio_item (item_id : Z) (updates : pyval)
  : prog MemeCoinAnalyzerAPI pyval :=
  _make_request "PUT" ("/api/v1/portfolio/" +:+ pretty item_id) [("json", updates)].

Definition remove_from_portfolio (item_id : Z) : prog MemeCoinAnalyzerAPI pyval :=
  _make_request "DELETE" ("/api/v1/portfolio/" +:+ pretty item_id) [].

Definition get_alerts : prog MemeCoinAnalyzerAPI pyval :=
  _make_request "GET" "/api/v1/alerts" [].

Definition create_alert (alert_data : pyval) : prog MemeCoinAnalyzerAPI pyval :=
  _make_request "POST" "/api/v1/alerts" [("json", alert_data)].

Definition update_alert (alert_id : Z) (updates : pyval) : prog MemeCoinAnalyzerAPI pyval :=
  _make_request "PUT" ("/api/v1/alerts/" +:+ pretty alert_id) [("json", updates)].

Definition delete_alert (alert_id : Z) : prog MemeCoinAnalyzerAPI pyval :=
  _make_request "DELETE" ("/api/v1/alerts/" +:+ pretty alert_id) [].

End MemeCoinAnalyzerAPI_methods.

(** ** class WebSocketClient *)

(** [ws] is [None] until [connect] has created the [WebSocketApp];
    [message_handlers] maps a message type to the handler registered last
    for it.  [connect] and [disconnect] start and stop the thread of the
    socket library; the callbacks that thread runs are the methods below,
    taken one call at a time, on text frames. *)
Record WebSocketClient := {
  wsc_url : string;
  wsc_token : pyval;
  ws : option WebSocketApp;
  is_connected : bool;
  message_handlers : gmap string callable
}.

Definition with_is_connected (b : bool) (self : WebSocketClient) : WebSocketClient :=
  {| wsc_url := wsc_url self;
     wsc_token := wsc_token self;
     ws := ws self;
     is_connected := b;
     message_handlers := message_handlers self |}.

Definition with_message_handlers (f : gmap string callable -> gmap string callable)
  (self : WebSocketClient) : WebSocketClient :=
  {| wsc_url := wsc_url self;
     wsc_token := wsc_token self;
     ws := ws self;
     is_connected := is_connected self;
     message_handlers := f (message_handlers self) |}.

Section WebSocketClient_methods.
Context `{Runtime}.

Definition WebSocketClient__init__ (ws_url : string) (t : pyval)
  : prog WebSocketClient unit :=
  set_self {| wsc_url := ws_url;
              wsc_token := t;
              ws := None;
              is_connected := false;
              message_handlers := ∅ |}.

Definition on_message (message_type : string) (handler : callable)
  : prog WebSocketClient unit :=
  let! self := get_self in
  set_self (with_message_handlers (fun h => <[message_type := handler]> h) self).

Definition send_message (message : pyval) : prog WebSocketClient unit :=
  let! self := get_self in
  match ws self with
  | Some app =>
      if is_connected self then emit (ESend app (json_dumps message))
      else print "WebSocket not connected"
  | None => print "WebSocket not connected"
  end.

Definition on_open (ws0 : WebSocketApp) : prog WebSocketClient unit :=
  do! print "WebSocket connected" in
  let! self := get_self in
  do! set_self (with_is_connected true self) in
  let! self := get_self in
  if py_truthy (wsc_token self) then
    send_message (PDict [("type", PStr "auth"); ("token", wsc_token self)])
  else ret tt.

Definition on_message_received (ws0 : WebSocketApp) (message : string)
  : prog WebSocketClient unit :=
  try_except
    (let! data := loads message in
     let! items := of_result (dict_of data) in
     let message_type := dict_get "type" items in
     do! print ("Received message: " +:+ py_str message_type) in
     let! self := get_self in
     let! registered := of_result (py_in_handlers message_type (message_handlers self)) in
     if registered then
       let! handler := of_result (py_handlers_getitem message_type (message_handlers self)) in
       do! invoke handler [data] in
       ret tt
     else print ("No handler for message type: " +:+ py_str message_type))
    (fun e =>
       match e with
       | JSONDecodeError msg | RequestsJSONDecodeError msg =>
           print ("Failed to parse WebSocket message: " +:+ msg)
       | _ => raise e
       end).

Definition on_error (ws0 : WebSocketApp) (error : string) : prog WebSocketClient unit :=
  print ("WebSocket error: " +:+ error).

Definition on_close (ws0 : WebSocketApp) : prog WebSocketClient unit :=
  do! print "WebSocket disconnected" in
  let! self := get_self in
  set_self (with_is_connected false self).

Definition subscribe (channel : string) (coin_id : pyval) : prog WebSocketClient unit :=
  let message := [("type", PStr "subscribe"); ("channel", PStr channel)] in
  let message :=
    if py_truthy coin_id then dict_setitem "coinId" coin_id message else message in
  send_message (PDict message).

End WebSocketClient_methods.

(** ** retry_with_backoff *)

Section Retry.
Context `{Runtime} {S : Type}.

(** The line printed before a retry. *)
Definition retry_line (attempt delay : Z) : string :=
  "Attempt " +:+ pretty attempt +:+ " failed, retrying in " +:+ pretty delay +:+ "s...".

(** The [for] loop, over the attempts still to make.  The body answers
    [Some v] when the function returns [v] and [None] when the loop goes
    on; running out of attempts falls off the end of the function, which
    returns [None]. *)
Fixpoint retry_attempts (func : callable) (max_retries base_delay : Z)
  (attempts : list Z) : prog S pyval :=
  match attempts with
  | [] => ret PNone
  | attempt :: rest =>
      let! r := try_except
                  (let! v := invoke func [] in ret (Some v))
                  (fun e =>
                     if is_Exception e then
                       if attempt =? max_retries then raise e
                       else
                         let delay := base_delay * 2 ^ (attempt - 1) in
                         do! print (retry_line attempt delay) in
                         do! sleep delay in
                         ret None
                     else raise e) in
      match r with
      | Some v => ret v
      | None => retry_attempts func max_retries base_delay rest
      end
  end.

(** [range(1, max_retries + 1)] is [seqZ 1 max_retries]. *)
Definition retry_with_backoff (func : callable) (max_retries base_delay : Z)
  : prog S pyval :=
  retry_attempts func max_retries base_delay (seqZ 1 max_retries).

End Retry.

(** ** A scripted runtime *)

(** An instance of [Runtime] for running the client on concrete inputs.
    The world is a script: the answers the network will give, in order, and
    the outcomes of the calls to the caller's callables, in order.  The
    [json] functions cover the documents of [documents], which have no
    float but NaN and only plain printable strings; the general theorems do not
    depend on this instance. *)
Record Script := {
  answers : list (Response + exn);
  outcomes : list (pyval + exn)
}.

Definition quote : string := String "034"%char EmptyString.

Definition backslash : string := String "092"%char EmptyString.

(** A string between double quotes, with the quotes and backslashes in
    it escaped. *)
Fixpoint escaped (s : string) : string :=
  match s with
  | EmptyString => EmptyString
  | String c rest =>
      if Ascii.eqb c "034"%char then backslash +:+ quote +:+ escaped rest
      else if Ascii.eqb c "092"%char then backslash +:+ backslash +:+ escaped rest
      else String c (escaped rest)
  end.

Definition quoted (s : string) : string := quote +:+ escaped s +:+ quote.

Fixpoint joined (sep : string) (parts : list string) : string :=
  match parts with
  | [] => EmptyString
  | [p] => p
  | p :: rest => p +:+ sep +:+ joined sep rest
  end.

(** [json.dumps] with its default separators. *)
Fixpoint script_dumps (v : pyval) : string :=
  match v with
  | PNone => "null"
  | PBool true => "true"
  | PBool false => "false"
  | PInt n => pretty n
  | PFloat _ => "NaN"
  | PStr s => quoted s
  | PList xs => "[" +:+ joined ", " (map script_dumps xs) +:+ "]"
  | PDict items =>
      "{" +:+ joined ", " (map (fun kv => quoted (fst kv) +:+ ": " +:+ script_dumps (snd kv))
                               items) +:+ "}"
  end.

(** [repr]: strings between single quotes. *)
Fixpoint script_repr (v : pyval) : string :=
  match v with
  | PNone => "None"
  | PBool true => "True"
  | PBool false => "False"
  | PInt n => pretty n
  | PFloat _ => "nan"
  | PStr s => "'" +:+ s +:+ "'"
  | PList xs => "[" +:+ joined ", " (map script_repr xs) +:+ "]"
  | PDict items =>
      "{" +:+ joined ", " (map (fun kv => "'" +:+ fst kv +:+ "': " +:+ script_repr (snd kv))
                               items) +:+ "}"
  end.

(** The JSON documents the scripted [json.loads] knows. *)
Definition documents : list pyval :=
  [ PList [];
    PDict [];
    PDict [("type", PList [])];
    PDict [("type", PStr "price_update");
           ("data", PDict [("coinId", PInt 1); ("price", PInt 2)])];
    PDict [("type", PStr "server_notice")];
    PDict [("success", PBool true); ("data", PDict [("token", PStr "abc123")])];
    PDict [("success", PBool true); ("data", PDict [])];
    PDict [("success", PBool false)];
    PDict [("success", PBool true); ("data", PList [])];
    PFloat nan ].

(** A thousand opening brackets: nested too deep for the decoder under
    the default recursion limit of CPython 3.11. *)
Definition deeply_nested : string :=
  Nat.iter 1000 (String "["%char) EmptyString.

(** [json.loads] on the text of a known document and on [deeply_nested];
    any other text is taken not to start with a JSON value. *)
Definition script_loads (s : string) : pyval + exn :=
  if String.eqb s deeply_nested then
    inr (RecursionError
           "maximum recursion depth exceeded while decoding a JSON array from a unicode string")
  else
    match List.find (fun v => String.eqb (script_dumps v) s) documents with
    | Some v => inl v
    | None => inr (JSONDecodeError "Expecting value: line 1 column 1 (char 0)")
    end.

(** The headers of a fresh session of requests 2.31. *)
Definition script_default_headers : gmap string string :=
  <["User-Agent" := "python-requests/2.31.0"]>
    (<["Accept-Encoding" := "gzip, deflate"]>
       (<["Accept" := "*/*"]> (<["Connection" := "keep-alive"]> ∅))).

(** The next answer of the script; a network that has nothing more to say
    refuses the connection. *)
Definition script_request (rq : Request) (w : Script) : (Response + exn) * Script :=
  match answers w with
  | a :: rest => (a, {| answers := rest; outcomes := outcomes w |})
  | [] => (inr (RequestException "Connection refused"), w)
  end.

(** The next outcome of the script; a callable with no outcome left
    returns [None]. *)
Definition script_call (f : callable) (args : list pyval) (w : Script)
  : (pyval + exn) * Script :=
  match outcomes w with
  | o :: rest => (o, {| answers := answers w; outcomes := rest |})
  | [] => (inl PNone, w)
  end.

Definition scripted : Runtime :=
  {| World := Script;
     json_loads := script_loads;
     json_dumps := script_dumps;
     py_repr := script_repr;
     default_headers := script_default_headers;
     session_request := script_request;
     call := script_call;
     time_sleep := fun _ w => w |}.

(** A client after [connect]: the socket object exists. *)
Definition connected_client (t : pyval) (handlers : gmap string callable)
  : WebSocketClient :=
  {| wsc_url := "ws://localhost:3001/ws";
     wsc_token := t;
     ws := Some {| app_url := "ws://localhost:3001/ws" |};
     is_connected := true;
     message_handlers := handlers |}.

(** A client before [connect]. *)
Definition fresh_client (t : pyval) : WebSocketClient :=
  {| wsc_url := "ws://localhost:3001/ws";
     wsc_token := t;
     ws := None;
     is_connected := false;
     message_handlers := ∅ |}.

Definition the_app : WebSocketApp := {| app_url := "ws://localhost:3001/ws" |}.

Definition no_script : Script := {| answers := []; outcomes := [] |}.

(** An object before [__init__] has run. *)
Definition blank_api : MemeCoinAnalyzerAPI :=
  {| config := {| base_url := EmptyString; ws_url := EmptyString; timeout := 0 |};
     token := PNone;
     session := {| headers := ∅; session_timeout := 0 |} |}.

(** [MemeCoinAnalyzerAPI()] under the scripted runtime. *)
Definition default_api : MemeCoinAnalyzerAPI :=
  state (@MemeCoinAnalyzerAPI__init__ scripted None PNone blank_api no_script).

Definition answer_with (status : Z) (why body : string) : Script :=
  {| answers := [inl {| status_code := status; reason := why;
                        url := "http://localhost:3001/"; text := body |}];
     outcomes := [] |}.

Definition outcomes_of (os : list (pyval + exn)) : Script :=
  {| answers := []; outcomes := os |}.

(** ** The statements in the words of the specification *)

(** The handler registered for a message type: handlers are registered
    under strings, so only a string finds one. *)
Definition handler_for (message_type : pyval) (handlers : gmap string callable)
  : option callable :=
  match message_type with
  | PStr s => handlers !! s
  | _ => None
  end.

(** What is seen of the attempts that failed and were retried, the first
    of them being number [attempt]: the call, the line printed and the
    sleep of [base_delay * 2 ^ (attempt - 1)] seconds. *)
Fixpoint failed_attempts (func : callable) (base_delay attempt : Z) (fails : list exn)
  : list event :=
  match fails with
  | [] => []
  | e :: rest =>
      ECall func [] (inr e)
        :: EPrint (retry_line attempt (base_delay * 2 ^ (attempt - 1)))
        :: ESleep (base_delay * 2 ^ (attempt - 1))
        :: failed_attempts func base_delay (attempt + 1) rest
  end.

(** The methods for coins, price history, risk assessment, the portfolio
    and alerts, with their arguments. *)
Inductive api_method :=
| Get_coins (params : list (string * pyval))
| Get_coin_by_id (coin_id : Z)
| Get_coin_by_address (address : string)
| Create_coin (coin_data : pyval)
| Search_coins (query : string)
| Get_price_history (coin_id : Z) (params : list (string * pyval))
| Get_risk_assessment (coin_id : Z)
| Get_portfolio
| Add_to_portfolio (portfolio_item : pyval)
| Update_portfolio_item (item_id : Z) (updates : pyval)
| Remove_from_portfolio (item_id : Z)
| Get_alerts
| Create_alert (alert_data : pyval)
| Update_alert (alert_id : Z) (updates : pyval)
| Delete_alert (alert_id : Z).

Definition run_method `{Runtime} (m : api_method) : prog MemeCoinAnalyzerAPI pyval :=
  match m with
  | Get_coins params => get_coins params
  | Get_coin_by_id coin_id => get_coin_by_id coin_id
  | Get_coin_by_address address => get_coin_by_address address
  | Create_coin coin_data => create_coin coin_data
  | Search_coins query => search_coins query
  | Get_price_history coin_id params => get_price_history coin_id params
  | Get_risk_assessment coin_id => get_risk_assessment coin_id
  | Get_portfolio => get_portfolio
  | Add_to_portfolio portfolio_item => add_to_portfolio portfolio_item
  | Update_portfolio_item item_id updates => update_portfolio_item item_id updates
  | Remove_from_portfolio item_id => remove_from_portfolio item_id
  | Get_alerts => get_alerts
  | Create_alert alert_data => create_alert alert_data
  | Update_alert alert_id updates => update_alert alert_id updates
  | Delete_alert alert_id => delete_alert alert_id
  end.

(** What [login] and [register] do with the dictionary their request
    returned: the token is stored when [success] is truthy, [data] is
    there and holds a token; nothing changes when [success] is falsy or
    [data] is missing; in both cases the dictionary is returned as it is.
    When [data] is there without a token to take, the call raises and
    nothing changes. *)
Definition stores_token `{Runtime} (method request : prog MemeCoinAnalyzerAPI pyval)
  : Prop :=
  forall self w items,
    res (request self w) = Returns (PDict items) ->
    let r := method self w in
    let wanted := py_truthy (dict_get "success" items) && dict_contains "data" items in
    (forall t,
        wanted = true ->
        py_getitem (dict_get "data" items) "token" = Returns t ->
        res r = Returns (PDict items) /\
        token (state r) = t /\
        headers (session (state r))
          = <["Authorization" := "Bearer " +:+ py_str t]> (headers (session self)) /\
        config (state r) = config self) /\
    (wanted = false -> res r = Returns (PDict items) /\ state r = self) /\
    (forall e,
        wanted = true ->
        py_getitem (dict_get "data" items) "token" = Raises e ->
        res r = Raises e /\ state r = self).

(** ** Further notions for the properties *)

(** [isinstance(v, dict)]. *)
Definition py_is_dict (v : pyval) : bool :=
  match v with
  | PDict _ => true
  | _ => false
  end.

(** The text of [e] when [e] is a [json.JSONDecodeError], which requests'
    own decoding error is too. *)
Definition as_JSONDecodeError (e : exn) : option string :=
  match e with
  | JSONDecodeError msg | RequestsJSONDecodeError msg => Some msg
  | _ => None
  end.

(** What [Response.json] raises when the decoder raises [e]. *)
Definition decoding_error (e : exn) : exn :=
  match e with
  | JSONDecodeError msg => RequestsJSONDecodeError msg
  | _ => e
  end.

(** The line the [except] clauses of [_make_request] print for [e]: one
    for an [HTTPError], one for any other [RequestException], none for an
    exception they do not catch. *)
Definition printed_for (e : exn) : list event :=
  match e with
  | HTTPError _ response =>
      [EPrint ("HTTP Error " +:+ pretty (status_code response) +:+ ": " +:+ text response)]
  | RequestsJSONDecodeError msg | RequestException msg =>
      [EPrint ("Request Error: " +:+ msg)]
  | _ => []
  end.

(** The effects [on_message_received] has of its own: a printed line,
    the call of a handler. *)
Definition print_or_call (ev : event) : bool :=
  match ev with
  | EPrint _ | ECall _ _ _ => true
  | _ => false
  end.

(** The seconds slept in all. *)
Definition total_sleep (tr : list event) : Z :=
  fold_right Z.add 0 (sleeps tr).

(** [retry_with_backoff] is handed any function of no argument.  In
    [error_handling_example] it is handed [get_coins_with_retry], a closure
    over the client; for such a function the loop is the same, with the
    function run in place of the call. *)
Section Retry_closure.
Context `{Runtime} {S : Type}.

Fixpoint retry_attempts_with (func : prog S pyval) (max_retries base_delay : Z)
  (attempts : list Z) : prog S pyval :=
  match attempts with
  | [] => ret PNone
  | attempt :: rest =>
      let! r := try_except
                  (let! v := func in ret (Some v))
                  (fun e =>
                     if is_Exception e then
                       if attempt =? max_retries then raise e
                       else
                         let delay := base_delay * 2 ^ (attempt - 1) in
                         do! print (retry_line attempt delay) in
                         do! sleep delay in
                         ret None
                     else raise e) in
      match r with
      | Some v => ret v
      | None => retry_attempts_with func max_retries base_delay rest
      end
  end.


End Retry_closure.


(** A script of [n] answers with the same status and body. *)
Definition answers_with (n : nat) (status : Z) (why body : string) : Script :=
  {| answers := repeat (inl {| status_code := status; reason := why;
                               url := "http://localhost:3001/"; text := body |}) n;
     outcomes := [] |}.

(** * Properties *)

(** ** Requests *)

Lemma http_error_msg_error `{Runtime} (r : Response) :
  400 <= status_code r < 600 ->
  String.eqb (http_error_msg r) EmptyString = false.
Proof.
  intros Hs. unfold http_error_msg.
  destruct (Z.leb_spec 400 (status_code r)); [|lia].
  destruct (Z.ltb_spec (status_code r) 500); cbn [andb].
  - destruct (pretty (status_code r)); reflexivity.
  - destruct (Z.leb_spec 500 (status_code r)); [|lia].
    destruct (Z.ltb_spec (status_code r) 600); [|lia].
    cbn [andb]. destruct (pretty (status_code r)); reflexivity.
Qed.

Lemma http_error_msg_pass `{Runtime} (r : Response) :
  ~ 400 <= status_code r < 600 ->
  http_error_msg r = EmptyString.
Proof.
  intros Hs. unfold http_error_msg.
  destruct (Z.leb_spec 400 (status_code r)), (Z.ltb_spec (status_code r) 500),
    (Z.leb_spec 500 (status_code r)), (Z.ltb_spec (status_code r) 600);
    cbn [andb]; try reflexivity; lia.
Qed.

(** [_make_request], case by case on what the transport answers. *)
Lemma make_request_run `{Runtime} (method endpoint : string) (kwargs : list (string * pyval))
  (self : MemeCoinAnalyzerAPI) (w : World) :
  let rq := session_rq self method (base_url (config self) +:+ endpoint) kwargs in
  _make_request method endpoint kwargs self w =
    match session_request rq w with
    | (inl resp, w') =>
        if String.eqb (http_error_msg resp) EmptyString then
          match json_loads (text resp) with
          | inl v => Run (Returns v) self w' [ERequest rq (inl resp)]
          | inr e =>
              Run (Raises (decoding_error e)) self w'
                  (ERequest rq (inl resp) :: printed_for (decoding_error e))
          end
        else
          Run (Raises (HTTPError (http_error_msg resp) resp)) self w'
              [ERequest rq (inl resp);
               EPrint ("HTTP Error " +:+ pretty (status_code resp) +:+ ": " +:+ text resp)]
    | (inr e, w') => Run (Raises e) self w' (ERequest rq (inr e) :: printed_for e)
    end.
Proof.
  intros rq. unfold _make_request, bind, try_except, get_self, Session_request.
  cbn. fold rq. destruct (session_request rq w) as [[resp|e] w']; cbn.
  - unfold raise_for_status, response_json.
    destruct (String.eqb (http_error_msg resp) EmptyString); cbn.
    + destruct (json_loads (text resp)) as [v|e]; [reflexivity|].
      destruct e; reflexivity.
    + reflexivity.
  - destruct e; reflexivity.
Qed.

Lemma make_request_requests `{Runtime} (method endpoint : string)
  (kwargs : list (string * pyval)) (self : MemeCoinAnalyzerAPI) (w : World) :
  requests (out (_make_request method endpoint kwargs self w))
  = [session_rq self method (base_url (config self) +:+ endpoint) kwargs].
Proof.
  rewrite make_request_run.
  destruct (session_request _ w) as [[resp|e] w'].
  - destruct (String.eqb (http_error_msg resp) EmptyString);
      [destruct (json_loads (text resp)) as [v|e]; [|destruct e]|]; reflexivity.
  - destruct e; reflexivity.
Qed.

Lemma make_request_state `{Runtime} (method endpoint : string)
  (kwargs : list (string * pyval)) (self : MemeCoinAnalyzerAPI) (w : World) :
  state (_make_request method endpoint kwargs self w) = self.
Proof.
  rewrite make_request_run.
  destruct (session_request _ w) as [[resp|e] w'].
  - destruct (String.eqb (http_error_msg resp) EmptyString);
      [destruct (json_loads (text resp))|]; reflexivity.
  - reflexivity.
Qed.


(** C1, as the code has it.  When the transport answers with a response,
    [_make_request] raises an [HTTPError] whenever the status is a client
    or server error (400 to 599), after printing the status code and the
    body; it returns a value exactly when the status is outside that range
    and the body decodes as JSON, and the value is the decoded body. *)
Theorem make_request_raises_on_error_status `{Runtime} (method endpoint : string)
  (kwargs : list (string * pyval)) (self : MemeCoinAnalyzerAPI) (w w' : World)
  (resp : Response) :
  let rq := session_rq self method (base_url (config self) +:+ endpoint) kwargs in
  session_request rq w = (inl resp, w') ->
  let r := _make_request method endpoint kwargs self w in
  (400 <= status_code resp < 600 ->
   res r = Raises (HTTPError (http_error_msg resp) resp) /\
   out r = [ERequest rq (inl resp);
            EPrint ("HTTP Error " +:+ pretty (status_code resp) +:+ ": " +:+ text resp)]) /\
  (forall v, res r = Returns v <->
             ~ 400 <= status_code resp < 600 /\ json_loads (text resp) = inl v).
Proof.
  intros rq Hanswer r. subst r. rewrite make_request_run. fold rq. rewrite Hanswer.
  split.
  - intros Hs. rewrite (http_error_msg_error resp Hs). cbn. auto.
  - intros v. split.
    + destruct (String.eqb (http_error_msg resp) EmptyString) eqn:Hmsg.
      * destruct (json_loads (text resp)) as [v'|e'] eqn:Hjson; cbn; [|discriminate].
        intros [= ->]. split; [|reflexivity].
        intros Hs. rewrite (http_error_msg_error resp Hs) in Hmsg. discriminate.
      * cbn. discriminate.
    + intros [Hs Hjson]. rewrite (http_error_msg_pass resp Hs). cbn.
      rewrite Hjson. reflexivity.
Qed.

(** A 404 answer under the scripted runtime. *)
Lemma make_request_raises_on_error_status_witness :
  400 <= 404 < 600 /\
  res (@_make_request scripted "GET" "/api/v1/coins/7" [] default_api
         (answer_with 404 "Not Found" "{}"))
  = Raises (HTTPError "404 Client Error: Not Found for url: http://localhost:3001/"
              {| status_code := 404; reason := "Not Found";
                 url := "http://localhost:3001/"; text := "{}" |}).
Proof.
  split; [lia|].
  refine (proj1 (proj1 (make_request_raises_on_error_status (H := scripted)
                          "GET" "/api/v1/coins/7" [] default_api
                          (answer_with 404 "Not Found" "{}") no_script _ eq_refl) _)).
  cbn. lia.
Defined.

(** C1 as stated fails: a redirect that is not followed (status 301, not
    2xx) with a JSON body raises nothing, and its body is returned. *)
Lemma make_request_returns_for_redirect :
  let moved := {| status_code := 301; reason := "Moved Permanently";
                  url := "http://localhost:3001/"; text := "{}" |} in
  let r := @_make_request scripted "GET" "/api/v1/coins" [("allow_redirects", PBool false)]
             default_api (answer_with 301 "Moved Permanently" "{}") in
  ~ 200 <= status_code moved < 300 /\
  In (ERequest (session_rq default_api "GET" "http://localhost:3001/api/v1/coins"
                  [("allow_redirects", PBool false)]) (inl moved)) (out r) /\
  res r = Returns (PDict []).
Proof.
  cbn zeta. split; [cbn; lia|]. split; [left|]; vm_compute; reflexivity.
Qed.




(** ** The WebSocket client *)

Lemma send_message_run `{Runtime} (message : pyval) (self : WebSocketClient) (w : World) :
  send_message message self w =
    Run (Returns tt) self w
        match ws self with
        | Some app =>
            if is_connected self then [ESend app (json_dumps message)]
            else [EPrint "WebSocket not connected"]
        | None => [EPrint "WebSocket not connected"]
        end.
Proof.
  unfold send_message, bind, get_self. cbn.
  destruct (ws self); [destruct (is_connected self)|]; reflexivity.
Qed.

(** C9.  [send_message] hands [ws.send] the JSON encoding of the message,
    and only when the socket object exists and [is_connected] is true;
    otherwise it prints [WebSocket not connected], sends nothing and
    returns normally, the client unchanged. *)
Theorem send_message_only_when_connected `{Runtime} (message : pyval)
  (self : WebSocketClient) (w : World) :
  let r := send_message message self w in
  (forall app payload,
      In (ESend app payload) (out r) ->
      ws self = Some app /\ is_connected self = true /\ payload = json_dumps message) /\
  ((exists app, ws self = Some app /\ is_connected self = true /\
                out r = [ESend app (json_dumps message)]) \/
   ((ws self = None \/ is_connected self = false) /\
    out r = [EPrint "WebSocket not connected"] /\
    sent (out r) = [] /\
    res r = Returns tt /\
    state r = self)).
Proof.
  cbn zeta. rewrite send_message_run. cbn [out res state].
  destruct (ws self) as [app|]; [destruct (is_connected self)|].
  - split.
    + intros app' payload [[= -> ->]|[]]. auto.
    + left. exists app. auto.
  - split.
    + intros app' payload [[=]|[]].
    + right. auto 6.
  - split.
    + intros app' payload [[=]|[]].
    + right. auto 6.
Qed.

(** C3, as the code has it.  [on_open] marks the client connected; it
    sends the message [{'type': 'auth', 'token': token}] when the token is
    truthy (set and not empty) and the socket object exists, and sends
    nothing when there is no token. *)
Theorem on_open_authenticates_with_token `{Runtime} (ws0 : WebSocketApp)
  (self : WebSocketClient) (w : World) :
  let r := on_open ws0 self w in
  is_connected (state r) = true /\
  (forall app,
      py_truthy (wsc_token self) = true ->
      ws self = Some app ->
      out r = [EPrint "WebSocket connected";
               ESend app (json_dumps (PDict [("type", PStr "auth");
                                             ("token", wsc_token self)]))]) /\
  (py_truthy (wsc_token self) = false ->
   out r = [EPrint "WebSocket connected"] /\ sent (out r) = []).
Proof.
  cbn zeta. unfold on_open, bind, print, emit, get_self, set_self. cbn.
  destruct (py_truthy (wsc_token self)) eqn:Htoken.
  - rewrite send_message_run. cbn. split; [reflexivity|]. split; [|discriminate].
    intros app _ ->. reflexivity.
  - cbn. split; [reflexivity|]. split; [discriminate|]. auto.
Qed.

(** A client holding a token, when its connection opens. *)
Lemma on_open_authenticates_with_token_witness :
  py_truthy (PStr "abc123") = true /\
  sent (out (@on_open scripted the_app (connected_client (PStr "abc123") ∅) no_script))
  = [script_dumps (PDict [("type", PStr "auth"); ("token", PStr "abc123")])].
Proof.
  split; [reflexivity|].
  rewrite (proj1 (proj2 (on_open_authenticates_with_token (H := scripted) the_app
                           (connected_client (PStr "abc123") ∅) no_script))
             the_app eq_refl eq_refl).
  reflexivity.
Defined.

(** C3 as stated fails: a client built without a token, whose socket
    object exists, sends nothing when the connection opens. *)
Lemma on_open_without_token_sends_nothing :
  let self := connected_client PNone ∅ in
  ws self = Some the_app /\
  out (@on_open scripted the_app self no_script) = [EPrint "WebSocket connected"] /\
  sent (out (@on_open scripted the_app self no_script)) = [].
Proof. cbn zeta. split; [reflexivity|]. split; vm_compute; reflexivity. Qed.

(** C7, as the code has it.  On a connected client (the socket object
    exists and [is_connected] is true), [subscribe] sends exactly one
    message, the JSON encoding of a dict whose [type] is ['subscribe'] and
    whose [channel] is the channel given; the dict has a [coinId], equal to
    [coin_id], if and only if [coin_id] is truthy.  On a client that is not
    connected (no socket object, or [is_connected] false) nothing is sent:
    [WebSocket not connected] is printed and the call returns normally. *)
Theorem subscribe_sends_when_connected `{Runtime} (channel : string) (coin_id : pyval)
  (self : WebSocketClient) (w : World) :
  (forall app,
      ws self = Some app ->
      is_connected self = true ->
      exists items,
        out (subscribe channel coin_id self w) = [ESend app (json_dumps (PDict items))] /\
        dict_lookup "type" items = Some (PStr "subscribe") /\
        dict_lookup "channel" items = Some (PStr channel) /\
        dict_contains "coinId" items = py_truthy coin_id /\
        (py_truthy coin_id = true -> dict_lookup "coinId" items = Some coin_id)) /\
  (ws self = None \/ is_connected self = false ->
   subscribe channel coin_id self w
   = Run (Returns tt) self w [EPrint "WebSocket not connected"] /\
   sent (out (subscribe channel coin_id self w)) = []).
Proof.
  unfold subscribe. cbn zeta. rewrite send_message_run. split.
  - intros app Hws Hconn. rewrite Hws, Hconn. cbn [out].
    destruct (py_truthy coin_id); eexists; (split; [reflexivity|]); cbn; auto.
    split; [reflexivity|]. split; [reflexivity|]. split; [reflexivity|]. discriminate.
  - intros [Hws|Hconn].
    + rewrite Hws. auto.
    + rewrite Hconn. destruct (ws self); auto.
Qed.

(** The first subscription of [websocket_example], on a connected client
    and on one whose connection has closed. *)
Lemma subscribe_sends_when_connected_witness :
  (exists items,
      out (@subscribe scripted "price_updates" (PStr "1") (connected_client PNone ∅) no_script)
      = [ESend the_app (script_dumps (PDict items))] /\
      dict_lookup "type" items = Some (PStr "subscribe") /\
      dict_lookup "channel" items = Some (PStr "price_updates") /\
      dict_contains "coinId" items = true /\
      (true = true -> dict_lookup "coinId" items = Some (PStr "1"))) /\
  sent (out (@subscribe scripted "price_updates" (PStr "1")
               (with_is_connected false (connected_client PNone ∅)) no_script)) = [].
Proof.
  split.
  - exact (proj1 (subscribe_sends_when_connected (H := scripted) "price_updates" (PStr "1")
                    (connected_client PNone ∅) no_script) the_app eq_refl eq_refl).
  - exact (proj2 (proj2 (subscribe_sends_when_connected (H := scripted) "price_updates"
                           (PStr "1") (with_is_connected false (connected_client PNone ∅))
                           no_script) (or_intror eq_refl))).
Defined.

(** C7 as stated fails: before [connect], [subscribe] sends no message; it
    prints that the socket is not connected. *)
Lemma subscribe_before_connect_sends_nothing :
  out (@subscribe scripted "price_updates" (PStr "1") (fresh_client PNone) no_script)
  = [EPrint "WebSocket not connected"] /\
  sent (out (@subscribe scripted "price_updates" (PStr "1") (fresh_client PNone) no_script))
  = [].
Proof. split; vm_compute; reflexivity. Qed.

(** C5, as the code has it.  A message on which [json.loads] raises a
    [JSONDecodeError] is reported with one printed line;
    [on_message_received] then returns normally, with no handler called
    and the client unchanged. *)
Theorem on_message_received_invalid_json `{Runtime} (ws0 : WebSocketApp)
  (message msg : string) (self : WebSocketClient) (w : World) :
  json_loads message = inr (JSONDecodeError msg) ->
  on_message_received ws0 message self w
  = Run (Returns tt) self w [EPrint ("Failed to parse WebSocket message: " +:+ msg)] /\
  calls (out (on_message_received ws0 message self w)) = [].
Proof.
  intros Hjson.
  assert (Hrun : on_message_received ws0 message self w
                 = Run (Returns tt) self w
                     [EPrint ("Failed to parse WebSocket message: " +:+ msg)]).
  { unfold on_message_received, try_except. unfold bind at 1. unfold loads.
    rewrite Hjson. reflexivity. }
  rewrite Hrun. auto.
Qed.

(** A text that is not JSON, with a handler registered. *)
Lemma on_message_received_invalid_json_witness :
  script_loads "not json"
  = inr (JSONDecodeError "Expecting value: line 1 column 1 (char 0)") /\
  on_message_received (H := scripted) the_app "not json"
    (connected_client PNone (<["price_update" := Callable "handle_price_update"]> ∅))
    no_script
  = @Run scripted _ _ (Returns tt)
      (connected_client PNone (<["price_update" := Callable "handle_price_update"]> ∅))
      no_script
      [EPrint "Failed to parse WebSocket message: Expecting value: line 1 column 1 (char 0)"].
Proof.
  split; [reflexivity|].
  exact (proj1 (on_message_received_invalid_json (H := scripted) the_app "not json"
                  "Expecting value: line 1 column 1 (char 0)"
                  (connected_client PNone
                     (<["price_update" := Callable "handle_price_update"]> ∅))
                  no_script eq_refl)).
Defined.

(** C5 as stated fails on texts that are not JSON.  A thousand opening
    brackets are no JSON; the decoder gives up with a [RecursionError],
    which the clause for [JSONDecodeError] does not catch: nothing is
    printed and the exception leaves the callback.  The text [NaN] is no
    JSON either, but the decoder accepts it as a float, which has no
    [get]: an [AttributeError] leaves the callback. *)
Lemma on_message_received_not_json_escapes :
  let self := connected_client PNone ∅ in
  let too_deep :=
    RecursionError
      "maximum recursion depth exceeded while decoding a JSON array from a unicode string" in
  script_loads deeply_nested = inr too_deep /\
  on_message_received (H := scripted) the_app deeply_nested self no_script
  = @Run scripted _ _ (Raises too_deep) self no_script [] /\
  script_loads "NaN" = inl (PFloat nan) /\
  on_message_received (H := scripted) the_app "NaN" self no_script
  = @Run scripted _ _ (Raises (AttributeError (PFloat nan) "get")) self no_script [].
Proof. cbn zeta. repeat split; vm_compute; reflexivity. Qed.

Lemma on_message_registers `{Runtime} (message_type : string) (handler : callable)
  (self : WebSocketClient) (w : World) :
  on_message message_type handler self w
  = Run (Returns tt)
      (with_message_handlers (fun h => <[message_type := handler]> h) self) w [].
Proof. reflexivity. Qed.

(** C2, as the code has it.  For a text message that decodes to a JSON
    object whose [type] is hashable (absent, null, a boolean, a number or a
    string): a handler registered with [on_message] is found under its
    type; when a handler is registered for the type of the message,
    [on_message_received] calls that handler and no other, once, with the
    whole decoded message; when none is registered, no handler is called,
    two lines are printed and the call returns normally, the client
    unchanged. *)
Theorem on_message_received_dispatches `{Runtime} (ws0 : WebSocketApp) (message : string)
  (items : list (string * pyval)) (self : WebSocketClient) (w : World) :
  json_loads message = inl (PDict items) ->
  py_hashable (dict_get "type" items) = true ->
  let message_type := dict_get "type" items in
  let r := on_message_received ws0 message self w in
  (forall t handler w0,
      handler_for (PStr t) (message_handlers (state (on_message t handler self w0)))
      = Some handler) /\
  (forall handler,
      handler_for message_type (message_handlers self) = Some handler ->
      calls (out r) = [(handler, [PDict items])] /\
      exists outcome rest,
        out r = EPrint ("Received message: " +:+ py_str message_type)
                  :: ECall handler [PDict items] outcome :: rest) /\
  (handler_for message_type (message_handlers self) = None ->
   calls (out r) = [] /\
   out r = [EPrint ("Received message: " +:+ py_str message_type);
            EPrint ("No handler for message type: " +:+ py_str message_type)] /\
   res r = Returns tt /\
   state r = self).
Proof.
  intros Hjson Hhash message_type r. split.
  { intros t handler w0. rewrite on_message_registers. cbn.
    apply lookup_insert_eq. }
  subst r. unfold on_message_received, try_except, bind, loads.
  rewrite Hjson. cbn. fold message_type. fold message_type in Hhash.
  destruct message_type as [| b | n | x | s | xs | d]; try discriminate Hhash; cbn;
    try (split; [discriminate | intros _; auto]).
  destruct (message_handlers self !! s) as [handler|] eqn:Hlookup; cbn.
  - split; [|discriminate]. intros handler' [= <-].
    unfold invoke.
    destruct (call handler [PDict items] w) as [[v|e] w1]; cbn.
    + split; [reflexivity|]. eauto.
    + destruct e; cbn; (split; [reflexivity|]); eauto.
  - split; [discriminate|]. auto.
Qed.

(** A price update, with the handler of [websocket_example] registered. *)
Lemma on_message_received_dispatches_witness :
  let update := [("type", PStr "price_update");
                 ("data", PDict [("coinId", PInt 1); ("price", PInt 2)])] in
  let handle_price_update := Callable "handle_price_update" in
  script_loads (script_dumps (PDict update)) = inl (PDict update) /\
  py_hashable (dict_get "type" update) = true /\
  calls (out (on_message_received (H := scripted) the_app (script_dumps (PDict update))
                (connected_client PNone (<["price_update" := handle_price_update]> ∅))
                no_script))
  = [(handle_price_update, [PDict update])].
Proof.
  cbn zeta. split; [reflexivity|]. split; [reflexivity|].
  refine (proj1 (proj1 (proj2 (on_message_received_dispatches (H := scripted) the_app
                                 (script_dumps
                                    (PDict [("type", PStr "price_update");
                                            ("data", PDict [("coinId", PInt 1);
                                                            ("price", PInt 2)])]))
                                 [("type", PStr "price_update");
                                  ("data", PDict [("coinId", PInt 1); ("price", PInt 2)])]
                                 (connected_client PNone
                                    (<["price_update" := Callable "handle_price_update"]> ∅))
                                 no_script eq_refl eq_refl))
                  (Callable "handle_price_update") _)).
  reflexivity.
Defined.

(** C2 as stated fails on texts that are JSON.  With no handler registered:
    the text of an empty array is JSON but has no [get], and an
    [AttributeError] leaves the callback; the text of an object whose
    [type] is an array is JSON too, the array cannot be hashed, and a
    [TypeError] leaves the callback. *)
Lemma on_message_received_json_raises :
  let self := connected_client PNone ∅ in
  let typed := script_dumps (PDict [("type", PList [])]) in
  script_loads "[]" = inl (PList []) /\
  res (on_message_received (H := scripted) the_app "[]" self no_script)
  = Raises (AttributeError (PList []) "get") /\
  script_loads typed = inl (PDict [("type", PList [])]) /\
  res (on_message_received (H := scripted) the_app typed self no_script)
  = Raises (TypeError_unhashable (PList [])).
Proof. cbn zeta. repeat split; vm_compute; reflexivity. Qed.

(** ** The token *)

Lemma set_token_run `{Runtime} (t : pyval) (self : MemeCoinAnalyzerAPI) (w : World) :
  set_token t self w
  = Run (Returns tt)
      (with_headers (fun h => <["Authorization" := "Bearer " +:+ py_str t]> h)
         (with_token t self)) w [].
Proof. reflexivity. Qed.

(** C6, as the code has it.  After [set_token(t)] the session headers
    hold [Authorization: Bearer t] and the client holds [t]; every request
    made from that state, by [_make_request] or by a method of the API, is
    issued with these headers; constructing the client with a token that is
    not empty leaves it as constructing it without one and calling
    [set_token(t)] does. *)
Theorem set_token_attaches_bearer `{Runtime} (t : string) (self : MemeCoinAnalyzerAPI)
  (w : World) :
  let self' := state (set_token (PStr t) self w) in
  headers (session self') !! "Authorization" = Some ("Bearer " +:+ t) /\
  token self' = PStr t /\
  (forall method endpoint kwargs w' rq,
      In rq (requests (out (_make_request method endpoint kwargs self' w'))) ->
      req_headers rq !! "Authorization" = Some ("Bearer " +:+ t)) /\
  (forall m w' rq,
      In rq (requests (out (run_method m self' w'))) ->
      req_headers rq !! "Authorization" = Some ("Bearer " +:+ t)) /\
  (forall cfg blank,
      t <> EmptyString ->
      state (MemeCoinAnalyzerAPI__init__ cfg (PStr t) blank w)
      = state (set_token (PStr t)
                 (state (MemeCoinAnalyzerAPI__init__ cfg PNone blank w)) w)).
Proof.
  cbn zeta. rewrite set_token_run. cbn [state].
  assert (Hheader : headers (session
                      (with_headers
                         (fun h => <["Authorization" := "Bearer " +:+ py_str (PStr t)]> h)
                         (with_token (PStr t) self))) !! "Authorization"
                    = Some ("Bearer " +:+ t)).
  { cbn. apply lookup_insert_eq. }
  assert (Hrequest : forall method endpoint kwargs w' rq,
             In rq (requests (out (_make_request method endpoint kwargs
                      (with_headers
                         (fun h => <["Authorization" := "Bearer " +:+ py_str (PStr t)]> h)
                         (with_token (PStr t) self)) w'))) ->
             req_headers rq !! "Authorization" = Some ("Bearer " +:+ t)).
  { intros method endpoint kwargs w' rq. rewrite make_request_requests.
    intros [<-|[]]. exact Hheader. }
  split; [exact Hheader|]. split; [reflexivity|]. split; [exact Hrequest|]. split.
  - intros m w' rq. destruct m; cbn [run_method]; apply Hrequest.
  - intros cfg blank Ht.
    unfold MemeCoinAnalyzerAPI__init__, bind, get_self, set_self. cbn.
    destruct (String.eqb_spec t EmptyString) as [->|_]; [congruence|]. reflexivity.
Qed.

(** The token [abc123]. *)
Lemma set_token_attaches_bearer_witness :
  "abc123" <> EmptyString /\
  headers (session (state (@MemeCoinAnalyzerAPI__init__ scripted None (PStr "abc123")
                             blank_api no_script))) !! "Authorization"
  = Some "Bearer abc123".
Proof.
  split; [discriminate|].
  rewrite (proj2 (proj2 (proj2 (proj2 (set_token_attaches_bearer (H := scripted) "abc123"
                                         blank_api no_script)))) None blank_api)
    by discriminate.
  exact (proj1 (set_token_attaches_bearer (H := scripted) "abc123"
                  (state (@MemeCoinAnalyzerAPI__init__ scripted None PNone blank_api
                            no_script)) no_script)).
Defined.

(** C6 as stated fails for the empty token: [set_token('')] sets the
    header, the constructor called with [token=''] sets none. *)
Lemma init_with_empty_token_sets_no_header :
  headers (session (state (@set_token scripted (PStr EmptyString) default_api no_script)))
    !! "Authorization" = Some "Bearer " /\
  headers (session (state (@MemeCoinAnalyzerAPI__init__ scripted None (PStr EmptyString)
                             blank_api no_script))) !! "Authorization" = None.
Proof. split; vm_compute; reflexivity. Qed.

(** The tail of [login] and [register] on a dictionary. *)
Lemma store_token_run `{Runtime} (items : list (string * pyval))
  (self : MemeCoinAnalyzerAPI) (w : World) :
  store_token (PDict items) self w =
    if py_truthy (dict_get "success" items) && dict_contains "data" items then
      match py_getitem (dict_get "data" items) "token" with
      | Returns t =>
          Run (Returns (PDict items))
              (with_headers (fun h => <["Authorization" := "Bearer " +:+ py_str t]> h)
                 (with_token t self)) w []
      | Raises e => Run (Raises e) self w []
      end
    else Run (Returns (PDict items)) self w [].
Proof.
  unfold store_token, bind, of_result. cbn [dict_of].
  destruct (py_truthy (dict_get "success" items)); cbn [andb]; [|reflexivity].
  unfold dict_contains, dict_get. cbn [py_getitem].
  destruct (dict_lookup "data" items) as [data|]; [|reflexivity].
  destruct (py_getitem data "token") as [t|e]; [|reflexivity].
  rewrite set_token_run. reflexivity.
Qed.

(** [login] and [register] are a request followed by [store_token]; the
    request leaves the client as it is. *)
Lemma store_token_after `{Runtime} (request : prog MemeCoinAnalyzerAPI pyval) :
  (forall self w, state (request self w) = self) ->
  stores_token (bind request (fun result => store_token result)) request.
Proof.
  intros Hstate self w items Hres. specialize (Hstate self w).
  destruct (request self w) as [r0 self0 w0 out0] eqn:Hrequest.
  cbn in Hres, Hstate. subst r0 self0.
  assert (Hrun : bind request (fun result => store_token result) self w
                 = match store_token (PDict items) self w0 with
                   | Run r self2 w2 out2 => Run r self2 w2 (out0 ++ out2)
                   end).
  { unfold bind. rewrite Hrequest. reflexivity. }
  cbn zeta. rewrite Hrun, store_token_run. clear Hrun Hrequest.
  destruct (py_truthy (dict_get "success" items) && dict_contains "data" items).
  - destruct (py_getitem (dict_get "data" items) "token") as [t|e]; cbn.
    + split; [|split; [discriminate|intros e _ [=]]].
      intros t' _ [= <-]. auto.
    + split; [intros t _ [=]|]. split; [discriminate|]. intros e' _ [= <-]. auto.
  - cbn. split; [intros t [=]|]. split; [auto|]. intros e [=].
Qed.

(** C10, as the code has it.  [login] and [register] store the token of
    the dictionary their request returned (in [self.token] and in the
    [Authorization] header) when [success] is truthy, [data] is there and
    [data] holds a token, and then return the dictionary as it is; when
    [success] is falsy or [data] is missing they change nothing and return
    the dictionary as it is; when [data] is there without a token to take
    they raise, and change nothing. *)
Theorem login_register_store_token `{Runtime} :
  (forall email password,
      stores_token (login email password)
        (_make_request "POST" "/api/v1/auth/login"
           [("json", PDict [("email", PStr email); ("password", PStr password)])])) /\
  (forall user_data,
      stores_token (register user_data)
        (_make_request "POST" "/api/v1/auth/register" [("json", user_data)])).
Proof.
  split; intros; apply store_token_after; intros; apply make_request_state.
Qed.

(** The login of [basic_example], answered with a token. *)
Lemma login_register_store_token_witness :
  let granted := [("success", PBool true); ("data", PDict [("token", PStr "abc123")])] in
  let r := @login scripted "user@example.com" "password123" default_api
             (answer_with 200 "OK" (script_dumps (PDict granted))) in
  res r = Returns (PDict granted) /\
  token (state r) = PStr "abc123" /\
  headers (session (state r))
  = <["Authorization" := "Bearer abc123"]> (headers (session default_api)) /\
  config (state r) = config default_api.
Proof.
  cbn zeta.
  refine (proj1 (proj1 (login_register_store_token (H := scripted))
                   "user@example.com" "password123" default_api
                   (answer_with 200 "OK"
                      (script_dumps
                         (PDict [("success", PBool true);
                                 ("data", PDict [("token", PStr "abc123")])])))
                   [("success", PBool true); ("data", PDict [("token", PStr "abc123")])]
                   _) (PStr "abc123") _ _);
    reflexivity.
Defined.

(** C10 as stated fails: a dictionary with a truthy [success] and a [data]
    that holds no token makes [register] raise a [KeyError]; no token is
    stored and the dictionary is not returned. *)
Lemma register_without_token_raises :
  let body := [("success", PBool true); ("data", PDict [])] in
  let user := PDict [("email", PStr "user@example.com")] in
  let w := answer_with 200 "OK" (script_dumps (PDict body)) in
  res (@_make_request scripted "POST" "/api/v1/auth/register" [("json", user)]
         default_api w) = Returns (PDict body) /\
  py_truthy (dict_get "success" body) && dict_contains "data" body = true /\
  res (@register scripted user default_api w) = Raises (KeyError (PStr "token")) /\
  token (state (@register scripted user default_api w)) = PNone /\
  headers (session (state (@register scripted user default_api w))) !! "Authorization"
  = None.
Proof. cbn zeta. repeat split; vm_compute; reflexivity. Qed.

(** ** Retrying *)

Lemma sleeps_failed_attempts (func : callable) (base_delay : Z) (fails : list exn) :
  forall attempt,
    sleeps (failed_attempts func base_delay attempt fails)
    = map (fun k => base_delay * 2 ^ (attempt - 1 + Z.of_nat k)) (seq 0 (length fails)).
Proof.
  induction fails as [|e rest IH]; intros attempt; [reflexivity|].
  cbn [failed_attempts length seq map]. unfold sleeps in *. cbn [flat_map app].
  rewrite IH, <- seq_shift, map_map. f_equal.
  - f_equal. f_equal. lia.
  - apply map_ext. intros k. f_equal. f_equal. lia.
Qed.



(** One turn of the loop. *)
Lemma retry_attempts_cons `{Runtime} {St : Type} (func : callable)
  (max_retries base_delay attempt : Z) (rest : list Z) (self : St) (w : World) :
  retry_attempts func max_retries base_delay (attempt :: rest) self w =
    match call func [] w with
    | (inl v, w1) => Run (Returns v) self w1 [ECall func [] (inl v)]
    | (inr e, w1) =>
        if is_Exception e then
          if attempt =? max_retries then Run (Raises e) self w1 [ECall func [] (inr e)]
          else
            match sleep_refused (base_delay * 2 ^ (attempt - 1)) with
            | Some refusal =>
                Run (Raises refusal) self w1
                    [ECall func [] (inr e);
                     EPrint (retry_line attempt (base_delay * 2 ^ (attempt - 1)))]
            | None =>
                match retry_attempts func max_retries base_delay rest self
                        (time_sleep (base_delay * 2 ^ (attempt - 1)) w1) with
                | Run r self2 w2 out2 =>
                    Run r self2 w2
                        (ECall func [] (inr e)
                           :: EPrint (retry_line attempt (base_delay * 2 ^ (attempt - 1)))
                           :: ESleep (base_delay * 2 ^ (attempt - 1)) :: out2)
                end
            end
        else Run (Raises e) self w1 [ECall func [] (inr e)]
    end.
Proof.
  cbn [retry_attempts]. unfold bind, try_except, invoke, print, emit, sleep, ret, raise.
  destruct (call func [] w) as [[v|e] w1]; [reflexivity|].
  destruct (is_Exception e); [|reflexivity].
  destruct (attempt =? max_retries); [reflexivity|].
  destruct (sleep_refused (base_delay * 2 ^ (attempt - 1))); [reflexivity|].
  destruct (retry_attempts func max_retries base_delay rest self
              (time_sleep (base_delay * 2 ^ (attempt - 1)) w1)); reflexivity.
Qed.




(** The same run, effect by effect. *)
Example retry_with_backoff_twice_down :
  let down := OtherException "ConnectionError" "Connection refused" in
  let f := Callable "get_coins_with_retry" in
  let r := retry_with_backoff (H := scripted) f 3 1 tt
             (outcomes_of [inr down; inr down; inl (PInt 5)]) in
  res r = Returns (PInt 5) /\
  out r = [ECall f [] (inr down); EPrint "Attempt 1 failed, retrying in 1s..."; ESleep 1;
           ECall f [] (inr down); EPrint "Attempt 2 failed, retrying in 2s..."; ESleep 2;
           ECall f [] (inl (PInt 5))].
Proof. cbn zeta. split; vm_compute; reflexivity. Qed.


(** * Further properties *)

(** ** Requests that fail *)

(** X1.  An exception of the transport is surfaced as it is: when
    [session.request] raises [e], [_make_request] raises the same [e] after
    that one request, the client unchanged; for a [RequestException] such
    as a refused connection or a timeout the one line [Request Error: ...]
    is printed first. *)
Theorem make_request_surfaces_transport_error `{Runtime} (method endpoint : string)
  (kwargs : list (string * pyval)) (self : MemeCoinAnalyzerAPI) (w w' : World) (e : exn) :
  let rq := session_rq self method (base_url (config self) +:+ endpoint) kwargs in
  session_request rq w = (inr e, w') ->
  let r := _make_request method endpoint kwargs self w in
  res r = Raises e /\
  state r = self /\
  world r = w' /\
  requests (out r) = [rq] /\
  (forall msg, e = RequestException msg ->
               out r = [ERequest rq (inr e); EPrint ("Request Error: " +:+ msg)]).
Proof.
  intros rq Hanswer r. subst r. rewrite make_request_run. fold rq. rewrite Hanswer.
  cbn [res state world out].
  repeat split; try reflexivity.
  - destruct e; reflexivity.
  - intros msg ->. reflexivity.
Qed.

(** A network with nothing to say refuses the connection. *)
Lemma make_request_surfaces_transport_error_witness :
  let r := @_make_request scripted "GET" "/api/v1/coins" [] default_api no_script in
  res r = Raises (RequestException "Connection refused") /\
  out r = [ERequest (session_rq default_api "GET" "http://localhost:3001/api/v1/coins" [])
             (inr (RequestException "Connection refused"));
           EPrint "Request Error: Connection refused"].
Proof.
  cbn zeta.
  pose proof (make_request_surfaces_transport_error (H := scripted) "GET" "/api/v1/coins" []
                default_api no_script no_script (RequestException "Connection refused")
                eq_refl) as (Hres & _ & _ & _ & Hout).
  split; [exact Hres|]. exact (Hout "Connection refused" eq_refl).
Defined.

(** X2.  A response that is no error but whose body the decoder rejects
    with a [JSONDecodeError] (an empty body, say) makes [_make_request]
    raise the decoding error of [Response.json], after printing
    [Request Error: ...]; a body on which the decoder raises a
    [RecursionError] makes [_make_request] raise that error, with nothing
    printed.  In both cases the one request has been made and the client
    is unchanged. *)
Theorem make_request_body_not_json `{Runtime} (method endpoint : string)
  (kwargs : list (string * pyval)) (self : MemeCoinAnalyzerAPI) (w w' : World)
  (resp : Response) (e : exn) :
  let rq := session_rq self method (base_url (config self) +:+ endpoint) kwargs in
  session_request rq w = (inl resp, w') ->
  ~ 400 <= status_code resp < 600 ->
  json_loads (text resp) = inr e ->
  let r := _make_request method endpoint kwargs self w in
  state r = self /\
  requests (out r) = [rq] /\
  (forall msg,
      e = JSONDecodeError msg ->
      res r = Raises (RequestsJSONDecodeError msg) /\
      out r = [ERequest rq (inl resp); EPrint ("Request Error: " +:+ msg)]) /\
  (forall msg,
      e = RecursionError msg ->
      res r = Raises (RecursionError msg) /\
      out r = [ERequest rq (inl resp)]).
Proof.
  intros rq Hanswer Hs Hjson r. subst r.
  split; [apply make_request_state|]. split; [apply make_request_requests|].
  rewrite make_request_run. fold rq.
  rewrite Hanswer, (http_error_msg_pass resp Hs), Hjson.
  split; intros msg ->; auto.
Qed.

(** [delete_alert] answered with 204 and no body. *)
Lemma make_request_body_not_json_witness :
  ~ 400 <= 204 < 600 /\
  script_loads EmptyString
  = inr (JSONDecodeError "Expecting value: line 1 column 1 (char 0)") /\
  res (@delete_alert scripted 3 default_api (answer_with 204 "No Content" EmptyString))
  = Raises (RequestsJSONDecodeError "Expecting value: line 1 column 1 (char 0)").
Proof.
  split; [lia|]. split; [reflexivity|].
  refine (proj1 (proj1 (proj2 (proj2
            (make_request_body_not_json (H := scripted) "DELETE" "/api/v1/alerts/3" []
               default_api (answer_with 204 "No Content" EmptyString) no_script
               {| status_code := 204; reason := "No Content";
                  url := "http://localhost:3001/"; text := EmptyString |}
               (JSONDecodeError "Expecting value: line 1 column 1 (char 0)")
               eq_refl _ eq_refl)))
            "Expecting value: line 1 column 1 (char 0)" eq_refl)).
  cbn. lia.
Defined.

(** The one request of a method of the API. *)
Lemma api_methods_requests `{Runtime} (m : api_method) (self : MemeCoinAnalyzerAPI)
  (w : World) :
  exists verb path kwargs,
    requests (out (run_method m self w))
    = [session_rq self verb (base_url (config self) +:+ "/api/v1/" +:+ path) kwargs] /\
    In verb ["GET"; "POST"; "PUT"; "DELETE"].
Proof.
  destruct m; cbn [run_method];
    unfold get_coins, get_coin_by_id, get_coin_by_address, create_coin, search_coins,
      get_price_history, get_risk_assessment, get_portfolio, add_to_portfolio,
      update_portfolio_item, remove_from_portfolio, get_alerts, create_alert,
      update_alert, delete_alert;
    rewrite make_request_requests;
    eexists _, _, _; (split; [reflexivity|]); cbn; tauto.
Qed.



(** ** The client and its token, further *)

(** X4.  [set_token] touches the token and the [Authorization] header
    only: the other headers, the configuration and the timeout stay, and
    nothing is printed or requested; setting a token again replaces the
    earlier one without a trace of it. *)
Theorem set_token_last_wins `{Runtime} (t1 t2 : pyval) (self : MemeCoinAnalyzerAPI)
  (w w' : World) :
  let self1 := state (set_token t1 self w) in
  state (set_token t2 self1 w') = state (set_token t2 self w') /\
  (forall k, k <> "Authorization" ->
             headers (session self1) !! k = headers (session self) !! k) /\
  config self1 = config self /\
  session_timeout (session self1) = session_timeout (session self) /\
  out (set_token t1 self w) = [].
Proof.
  cbn zeta. rewrite !set_token_run. cbn [state out].
  split.
  - unfold with_headers, with_token. cbn. rewrite insert_insert_eq. reflexivity.
  - split; [|auto]. intros k Hk. cbn. apply lookup_insert_ne. congruence.
Qed.

(** The token replaced, and the content type kept. *)
Lemma set_token_last_wins_witness :
  let self1 := state (@set_token scripted (PStr "old") default_api no_script) in
  "Content-Type" <> "Authorization" /\
  headers (session self1) !! "Content-Type" = Some "application/json" /\
  headers (session (state (@set_token scripted (PStr "new") self1 no_script)))
    !! "Authorization" = Some "Bearer new".
Proof.
  cbn zeta. split; [discriminate|]. split.
  - rewrite (proj1 (proj2 (set_token_last_wins (H := scripted) (PStr "old") (PStr "new")
                             default_api no_script no_script)) "Content-Type")
      by discriminate.
    reflexivity.
  - rewrite (proj1 (set_token_last_wins (H := scripted) (PStr "old") (PStr "new")
                      default_api no_script no_script)).
    reflexivity.
Defined.

(** X5.  The constructor requests nothing and builds the same client
    whatever the object held before: the configuration given, or the
    default one; the token given; the timeout of the configuration on the
    session; the headers of a fresh session with [Content-Type] set to JSON
    and [User-Agent] replaced by the client's own. *)
Theorem init_builds_client `{Runtime} (cfg : option APIConfig) (t : pyval)
  (blank : MemeCoinAnalyzerAPI) (w : World) :
  let r := MemeCoinAnalyzerAPI__init__ cfg t blank w in
  res r = Returns tt /\
  out r = [] /\
  config (state r) = match cfg with Some c => c | None => APIConfig_default end /\
  token (state r) = t /\
  session_timeout (session (state r)) = timeout (config (state r)) /\
  headers (session (state r)) !! "Content-Type" = Some "application/json" /\
  headers (session (state r)) !! "User-Agent" = Some "MemeCoinAnalyzer-Python-Client/1.0" /\
  (forall k, k <> "Content-Type" -> k <> "User-Agent" -> k <> "Authorization" ->
             headers (session (state r)) !! k = default_headers !! k) /\
  (forall blank' w', state (MemeCoinAnalyzerAPI__init__ cfg t blank' w') = state r).
Proof.
  cbn zeta. unfold MemeCoinAnalyzerAPI__init__, bind, get_self, set_self.
  destruct (py_truthy t).
  - rewrite !set_token_run. cbn.
    split; [reflexivity|]. split; [reflexivity|]. split; [reflexivity|].
    split; [reflexivity|]. split; [reflexivity|]. split.
    { rewrite lookup_insert_ne by discriminate. rewrite lookup_insert_ne by discriminate.
      apply lookup_insert_eq. }
    split.
    { rewrite lookup_insert_ne by discriminate. apply lookup_insert_eq. }
    split.
    { intros k Hct Hua Hauth. rewrite !lookup_insert_ne by congruence. reflexivity. }
    intros blank' w'. reflexivity.
  - cbn.
    split; [reflexivity|]. split; [reflexivity|]. split; [reflexivity|].
    split; [reflexivity|]. split; [reflexivity|]. split.
    { rewrite lookup_insert_ne by discriminate. apply lookup_insert_eq. }
    split.
    { apply lookup_insert_eq. }
    split.
    { intros k Hct Hua Hauth. rewrite !lookup_insert_ne by congruence. reflexivity. }
    intros blank' w'. reflexivity.
Qed.

(** The default client keeps the [Accept] header of the session. *)
Lemma init_builds_client_witness :
  "Accept" <> "Content-Type" /\ "Accept" <> "User-Agent" /\ "Accept" <> "Authorization" /\
  headers (session default_api) !! "Accept" = Some "*/*".
Proof.
  repeat (split; [discriminate|]).
  unfold default_api.
  rewrite (proj1 (proj2 (proj2 (proj2 (proj2 (proj2 (proj2 (proj2
             (init_builds_client (H := scripted) None PNone blank_api no_script))))))))
             "Accept") by discriminate.
  reflexivity.
Defined.

(** X6.  When their request fails, [login] and [register] add nothing to
    it: the same exception is raised (the [HTTPError] of a 401, say), the
    same lines are printed, and the token and the headers are as before. *)
Theorem login_register_propagate_errors `{Runtime} (self : MemeCoinAnalyzerAPI) (w : World)
  (e : exn) :
  (forall email password,
      let request := _make_request "POST" "/api/v1/auth/login"
                       [("json", PDict [("email", PStr email);
                                        ("password", PStr password)])] in
      res (request self w) = Raises e ->
      login email password self w = request self w /\
      state (login email password self w) = self) /\
  (forall user_data,
      let request := _make_request "POST" "/api/v1/auth/register" [("json", user_data)] in
      res (request self w) = Raises e ->
      register user_data self w = request self w /\
      state (register user_data self w) = self).
Proof.
  split.
  - intros email password request Hres. subst request.
    unfold login, bind.
    pose proof (make_request_state "POST" "/api/v1/auth/login"
                  [("json", PDict [("email", PStr email); ("password", PStr password)])]
                  self w) as Hstate.
    destruct (_make_request _ _ _ self w) as [[v|e'] self1 w1 out1];
      cbn in Hres, Hstate; [discriminate|]. subst self1. auto.
  - intros user_data request Hres. subst request.
    unfold register, bind.
    pose proof (make_request_state "POST" "/api/v1/auth/register" [("json", user_data)]
                  self w) as Hstate.
    destruct (_make_request _ _ _ self w) as [[v|e'] self1 w1 out1];
      cbn in Hres, Hstate; [discriminate|]. subst self1. auto.
Qed.

(** The login of [error_handling_example], refused with 401. *)
Lemma login_register_propagate_errors_witness :
  let w := answer_with 401 "Unauthorized" "{}" in
  let refused := {| status_code := 401; reason := "Unauthorized";
                    url := "http://localhost:3001/"; text := "{}" |} in
  res (@login scripted "invalid@email.com" "wrongpassword" default_api w)
  = Raises (HTTPError "401 Client Error: Unauthorized for url: http://localhost:3001/"
              refused) /\
  state (@login scripted "invalid@email.com" "wrongpassword" default_api w) = default_api.
Proof.
  cbn zeta.
  destruct (proj1 (login_register_propagate_errors (H := scripted) default_api
                     (answer_with 401 "Unauthorized" "{}")
                     (HTTPError "401 Client Error: Unauthorized for url: http://localhost:3001/"
                        {| status_code := 401; reason := "Unauthorized";
                           url := "http://localhost:3001/"; text := "{}" |}))
              "invalid@email.com" "wrongpassword" eq_refl) as [Hrun Hstate].
  split; [|exact Hstate]. rewrite Hrun. reflexivity.
Defined.

(** X7.  After a [login] whose response grants a token, every method of
    the API sends its request with [Authorization: Bearer <token>], to the
    same base URL as before. *)
Theorem login_then_requests_authorized `{Runtime} (email password : string)
  (self : MemeCoinAnalyzerAPI) (w : World) (items : list (string * pyval)) (t : string) :
  res (_make_request "POST" "/api/v1/auth/login"
         [("json", PDict [("email", PStr email); ("password", PStr password)])] self w)
  = Returns (PDict items) ->
  py_truthy (dict_get "success" items) && dict_contains "data" items = true ->
  py_getitem (dict_get "data" items) "token" = Returns (PStr t) ->
  forall m w' rq,
    In rq (requests (out (run_method m (state (login email password self w)) w'))) ->
    req_headers rq !! "Authorization" = Some ("Bearer " +:+ t) /\
    exists path, req_url rq = base_url (config self) +:+ "/api/v1/" +:+ path.
Proof.
  intros Hres Hwanted Htoken m w' rq Hin.
  destruct (proj1 (store_token_after
                     (_make_request "POST" "/api/v1/auth/login"
                        [("json", PDict [("email", PStr email);
                                         ("password", PStr password)])])
                     (make_request_state _ _ _) self w items Hres)
              (PStr t) Hwanted Htoken) as (_ & _ & Hheaders & Hconfig).
  fold (login email password) in Hheaders, Hconfig.
  destruct (api_methods_requests m (state (login email password self w)) w')
    as (verb & path & kwargs & Hrequests & _).
  rewrite Hrequests in Hin. destruct Hin as [<-|[]]. cbn.
  split.
  - rewrite Hheaders. apply lookup_insert_eq.
  - exists path. rewrite Hconfig. reflexivity.
Qed.

(** The login of [basic_example], then the portfolio. *)
Lemma login_then_requests_authorized_witness :
  let granted := [("success", PBool true); ("data", PDict [("token", PStr "abc123")])] in
  let w := answer_with 200 "OK" (script_dumps (PDict granted)) in
  let self := state (@login scripted "user@example.com" "password123" default_api w) in
  requests (out (@get_portfolio scripted self no_script))
  = [session_rq self "GET" "http://localhost:3001/api/v1/portfolio" []] /\
  headers (session self) !! "Authorization" = Some "Bearer abc123".
Proof.
  cbn zeta. split; [reflexivity|].
  refine (proj1 (login_then_requests_authorized (H := scripted)
                   "user@example.com" "password123" default_api
                   (answer_with 200 "OK"
                      (script_dumps
                         (PDict [("success", PBool true);
                                 ("data", PDict [("token", PStr "abc123")])])))
                   [("success", PBool true); ("data", PDict [("token", PStr "abc123")])]
                   "abc123" eq_refl eq_refl eq_refl Get_portfolio no_script
                   (session_rq
                      (state (@login scripted "user@example.com" "password123" default_api
                                (answer_with 200 "OK"
                                   (script_dumps
                                      (PDict [("success", PBool true);
                                              ("data", PDict [("token", PStr "abc123")])])))))
                      "GET" "http://localhost:3001/api/v1/portfolio" []) _)).
  left. reflexivity.
Defined.

(** X8.  A response that is JSON but no object (an array, a number, a
    string, null) makes [login] and [register] raise the [AttributeError]
    of [result.get]; the request has been made, and the client is
    unchanged. *)
Theorem login_register_need_an_object `{Runtime} (self : MemeCoinAnalyzerAPI) (w : World)
  (v : pyval) :
  py_is_dict v = false ->
  (forall email password,
      let request := _make_request "POST" "/api/v1/auth/login"
                       [("json", PDict [("email", PStr email);
                                        ("password", PStr password)])] in
      res (request self w) = Returns v ->
      res (login email password self w) = Raises (AttributeError v "get") /\
      out (login email password self w) = out (request self w) /\
      state (login email password self w) = self) /\
  (forall user_data,
      let request := _make_request "POST" "/api/v1/auth/register" [("json", user_data)] in
      res (request self w) = Returns v ->
      res (register user_data self w) = Raises (AttributeError v "get") /\
      out (register user_data self w) = out (request self w) /\
      state (register user_data self w) = self).
Proof.
  intros Hv.
  assert (Hstore : forall self1 w1,
             store_token v self1 w1 = Run (Raises (AttributeError v "get")) self1 w1 []).
  { intros self1 w1. destruct v; try discriminate Hv; reflexivity. }
  split.
  - intros email password request Hres. subst request.
    unfold login, bind.
    pose proof (make_request_state "POST" "/api/v1/auth/login"
                  [("json", PDict [("email", PStr email); ("password", PStr password)])]
                  self w) as Hstate.
    destruct (_make_request _ _ _ self w) as [[v'|e'] self1 w1 out1];
      cbn in Hres, Hstate; [|discriminate]. injection Hres as ->. subst self1.
    rewrite Hstore. cbn. rewrite app_nil_r. auto.
  - intros user_data request Hres. subst request.
    unfold register, bind.
    pose proof (make_request_state "POST" "/api/v1/auth/register" [("json", user_data)]
                  self w) as Hstate.
    destruct (_make_request _ _ _ self w) as [[v'|e'] self1 w1 out1];
      cbn in Hres, Hstate; [|discriminate]. injection Hres as ->. subst self1.
    rewrite Hstore. cbn. rewrite app_nil_r. auto.
Qed.

(** A server that answers the registration with an empty array. *)
Lemma login_register_need_an_object_witness :
  py_is_dict (PList []) = false /\
  res (@register scripted (PDict [("email", PStr "user@example.com")]) default_api
         (answer_with 200 "OK" "[]"))
  = Raises (AttributeError (PList []) "get").
Proof.
  split; [reflexivity|].
  exact (proj1 (proj2 (login_register_need_an_object (H := scripted) default_api
                         (answer_with 200 "OK" "[]") (PList []) eq_refl)
                  (PDict [("email", PStr "user@example.com")]) eq_refl)).
Defined.

(** ** The WebSocket client, further *)

(** [on_message_received] on a text that decodes to an object. *)
Lemma on_message_received_object `{Runtime} (ws0 : WebSocketApp) (message : string)
  (items : list (string * pyval)) (self : WebSocketClient) (w : World) :
  json_loads message = inl (PDict items) ->
  on_message_received ws0 message self w =
    let message_type := dict_get "type" items in
    let received := EPrint ("Received message: " +:+ py_str message_type) in
    if py_hashable message_type then
      match handler_for message_type (message_handlers self) with
      | Some handler =>
          match call handler [PDict items] w with
          | (inl v, w1) =>
              Run (Returns tt) self w1 [received; ECall handler [PDict items] (inl v)]
          | (inr e, w1) =>
              match as_JSONDecodeError e with
              | Some msg =>
                  Run (Returns tt) self w1
                      [received; ECall handler [PDict items] (inr e);
                       EPrint ("Failed to parse WebSocket message: " +:+ msg)]
              | None =>
                  Run (Raises e) self w1 [received; ECall handler [PDict items] (inr e)]
              end
          end
      | None =>
          Run (Returns tt) self w
              [received; EPrint ("No handler for message type: " +:+ py_str message_type)]
      end
    else Run (Raises (TypeError_unhashable message_type)) self w [received].
Proof.
  intros Hjson. unfold on_message_received, try_except, bind, loads.
  rewrite Hjson. cbn.
  destruct (dict_get "type" items) as [| b | n | x | s | xs | d]; cbn; try reflexivity.
  destruct (message_handlers self !! s) as [handler|]; cbn; [|reflexivity].
  unfold invoke.
  destruct (call handler [PDict items] w) as [[v|e] w1]; cbn; [reflexivity|].
  destruct e; reflexivity.
Qed.

(** [on_message_received] on a text that decodes to something else. *)
Lemma on_message_received_no_object `{Runtime} (ws0 : WebSocketApp) (message : string)
  (v : pyval) (self : WebSocketClient) (w : World) :
  json_loads message = inl v ->
  py_is_dict v = false ->
  on_message_received ws0 message self w = Run (Raises (AttributeError v "get")) self w [].
Proof.
  intros Hjson Hv. unfold on_message_received, try_except. unfold bind at 1.
  unfold loads. rewrite Hjson.
  destruct v; try discriminate Hv; reflexivity.
Qed.

(** [on_message_received] on a text on which the decoder raises. *)
Lemma on_message_received_undecoded `{Runtime} (ws0 : WebSocketApp) (message : string)
  (e : exn) (self : WebSocketClient) (w : World) :
  json_loads message = inr e ->
  on_message_received ws0 message self w =
    match as_JSONDecodeError e with
    | Some msg =>
        Run (Returns tt) self w [EPrint ("Failed to parse WebSocket message: " +:+ msg)]
    | None => Run (Raises e) self w []
    end.
Proof.
  intros Hjson. unfold on_message_received, try_except. unfold bind at 1.
  unfold loads. rewrite Hjson. destruct e; reflexivity.
Qed.

(** Closes a goal about a run that has been computed: the components
    one by one, the bound on the calls by arithmetic, what holds when no
    handler is called by computation. *)
Ltac run_computed :=
  cbn; (split; [reflexivity|]); (split; [lia|]);
  first [discriminate | intros _; repeat (split; [reflexivity|]); reflexivity].

(** X9.  Of its own, [on_message_received] only prints and calls a
    handler: every effect of it is a printed line or the call of a
    handler, and there is at most one call.  When no handler is called
    (the text is not decoded, is no object, has a [type] that cannot be
    hashed or one with no handler), the client and the world are left as
    they are, and nothing is sent, requested or slept.  What a handler
    does while it runs is its own. *)
Theorem on_message_received_frame `{Runtime} (ws0 : WebSocketApp) (message : string)
  (self : WebSocketClient) (w : World) :
  let r := on_message_received ws0 message self w in
  forallb print_or_call (out r) = true /\
  (length (calls (out r)) <= 1)%nat /\
  (calls (out r) = [] ->
   state r = self /\ world r = w /\
   sent (out r) = [] /\ requests (out r) = [] /\ sleeps (out r) = []).
Proof.
  cbn zeta. destruct (json_loads message) as [v|e] eqn:Hjson.
  - destruct (py_is_dict v) eqn:Hv.
    + destruct v; try discriminate Hv.
      rewrite (on_message_received_object ws0 message items self w Hjson). cbn zeta.
      destruct (py_hashable (dict_get "type" items)); [|run_computed].
      destruct (handler_for (dict_get "type" items) (message_handlers self))
        as [handler|]; [|run_computed].
      destruct (call handler [PDict items] w) as [[v|e] w1]; [run_computed|].
      destruct (as_JSONDecodeError e); run_computed.
    + rewrite (on_message_received_no_object ws0 message v self w Hjson Hv).
      run_computed.
  - rewrite (on_message_received_undecoded ws0 message e self w Hjson).
    destruct (as_JSONDecodeError e); run_computed.
Qed.

(** A notice of the server with no handler for it. *)
Lemma on_message_received_frame_witness :
  let notice := script_dumps (PDict [("type", PStr "server_notice")]) in
  let self := connected_client PNone (<["price_update" := Callable "handle_price_update"]> ∅) in
  calls (out (on_message_received (H := scripted) the_app notice self no_script)) = [] /\
  state (on_message_received (H := scripted) the_app notice self no_script) = self /\
  sent (out (on_message_received (H := scripted) the_app notice self no_script)) = [].
Proof.
  cbn zeta.
  assert (Hcalls : calls (out (on_message_received (H := scripted) the_app
                                 (script_dumps (PDict [("type", PStr "server_notice")]))
                                 (connected_client PNone
                                    (<["price_update" := Callable "handle_price_update"]> ∅))
                                 no_script)) = []) by reflexivity.
  split; [exact Hcalls|].
  destruct (proj2 (proj2 (on_message_received_frame (H := scripted) the_app
                            (script_dumps (PDict [("type", PStr "server_notice")]))
                            (connected_client PNone
                               (<["price_update" := Callable "handle_price_update"]> ∅))
                            no_script)) Hcalls) as (Hstate & _ & Hsent & _).
  split; assumption.
Defined.

(** X10.  Registering a handler again for a type replaces the earlier
    one, and leaves the handlers of the other types, the token, the socket
    and the connection flag alone; a message of that type is then handed
    to the later handler only. *)
Theorem on_message_last_registration_wins `{Runtime} (t : string) (h1 h2 : callable)
  (self : WebSocketClient) (w w' : World) :
  let self2 := state (on_message t h2 (state (on_message t h1 self w)) w') in
  self2 = state (on_message t h2 self w') /\
  handler_for (PStr t) (message_handlers self2) = Some h2 /\
  (forall t', t' <> t ->
              handler_for (PStr t') (message_handlers self2)
              = handler_for (PStr t') (message_handlers self)) /\
  (ws self2 = ws self /\ is_connected self2 = is_connected self /\
   wsc_token self2 = wsc_token self /\ wsc_url self2 = wsc_url self) /\
  (forall ws0 message items w0,
      json_loads message = inl (PDict items) ->
      dict_get "type" items = PStr t ->
      calls (out (on_message_received ws0 message self2 w0)) = [(h2, [PDict items])]).
Proof.
  cbn zeta. rewrite !on_message_registers. cbn [state].
  assert (Hhandlers : message_handlers
                        (with_message_handlers (fun h => <[t := h2]> h)
                           (with_message_handlers (fun h => <[t := h1]> h) self))
                      = <[t := h2]> (message_handlers self)).
  { cbn. apply insert_insert_eq. }
  split.
  { unfold with_message_handlers in *. cbn in *. rewrite Hhandlers. reflexivity. }
  split.
  { rewrite Hhandlers. cbn. apply lookup_insert_eq. }
  split.
  { intros t' Ht'. rewrite Hhandlers. cbn. apply lookup_insert_ne. congruence. }
  split; [cbn; auto|].
  intros ws0 message items w0 Hjson Htype.
  rewrite (on_message_received_object ws0 message items _ w0 Hjson). cbn zeta.
  rewrite Htype, Hhandlers. cbn [py_hashable handler_for].
  rewrite lookup_insert_eq.
  destruct (call h2 [PDict items] w0) as [[v|e] w1]; [reflexivity|].
  destruct (as_JSONDecodeError e); reflexivity.
Qed.

(** Two handlers for price updates: the second one gets the message. *)
Lemma on_message_last_registration_wins_witness :
  let update := [("type", PStr "price_update");
                 ("data", PDict [("coinId", PInt 1); ("price", PInt 2)])] in
  let self2 := state (@on_message scripted "price_update" (Callable "second")
                        (state (@on_message scripted "price_update" (Callable "first")
                                  (connected_client PNone ∅) no_script)) no_script) in
  script_loads (script_dumps (PDict update)) = inl (PDict update) /\
  dict_get "type" update = PStr "price_update" /\
  calls (out (on_message_received (H := scripted) the_app (script_dumps (PDict update))
                self2 no_script))
  = [(Callable "second", [PDict update])].
Proof.
  cbn zeta. split; [reflexivity|]. split; [reflexivity|].
  exact (proj2 (proj2 (proj2 (proj2
           (on_message_last_registration_wins (H := scripted) "price_update"
              (Callable "first") (Callable "second") (connected_client PNone ∅)
              no_script no_script))))
           the_app
           (script_dumps (PDict [("type", PStr "price_update");
                                 ("data", PDict [("coinId", PInt 1); ("price", PInt 2)])]))
           [("type", PStr "price_update");
            ("data", PDict [("coinId", PInt 1); ("price", PInt 2)])]
           no_script eq_refl eq_refl).
Defined.

(** X11.  When the handler of a message raises, the exception leaves
    [on_message_received], after the one line [Received message: ...],
    unless it is a [json.JSONDecodeError]: that one is caught by the clause
    meant for the message itself, reported as a failure to parse the
    message, and the callback returns normally. *)
Theorem on_message_received_handler_raises `{Runtime} (ws0 : WebSocketApp)
  (message t : string) (items : list (string * pyval)) (handler : callable)
  (self : WebSocketClient) (w w1 : World) (e : exn) :
  json_loads message = inl (PDict items) ->
  dict_get "type" items = PStr t ->
  message_handlers self !! t = Some handler ->
  call handler [PDict items] w = (inr e, w1) ->
  let r := on_message_received ws0 message self w in
  match as_JSONDecodeError e with
  | Some msg =>
      res r = Returns tt /\
      out r = [EPrint ("Received message: " +:+ t);
               ECall handler [PDict items] (inr e);
               EPrint ("Failed to parse WebSocket message: " +:+ msg)]
  | None =>
      res r = Raises e /\
      out r = [EPrint ("Received message: " +:+ t); ECall handler [PDict items] (inr e)]
  end.
Proof.
  intros Hjson Htype Hhandler Hcall. cbn zeta.
  rewrite (on_message_received_object ws0 message items self w Hjson). cbn zeta.
  rewrite Htype. cbn [py_hashable handler_for py_str]. rewrite Hhandler, Hcall.
  destruct (as_JSONDecodeError e); auto.
Qed.

(** The handler of price updates fails on a key that is missing. *)
Lemma on_message_received_handler_raises_witness :
  let update := [("type", PStr "price_update");
                 ("data", PDict [("coinId", PInt 1); ("price", PInt 2)])] in
  let handle_price_update := Callable "handle_price_update" in
  res (on_message_received (H := scripted) the_app (script_dumps (PDict update))
         (connected_client PNone (<["price_update" := handle_price_update]> ∅))
         (outcomes_of [inr (KeyError (PStr "price"))]))
  = Raises (KeyError (PStr "price")).
Proof.
  cbn zeta.
  exact (proj1 (on_message_received_handler_raises (H := scripted) the_app
                  (script_dumps (PDict [("type", PStr "price_update");
                                        ("data", PDict [("coinId", PInt 1);
                                                        ("price", PInt 2)])]))
                  "price_update"
                  [("type", PStr "price_update");
                   ("data", PDict [("coinId", PInt 1); ("price", PInt 2)])]
                  (Callable "handle_price_update")
                  (connected_client PNone
                     (<["price_update" := Callable "handle_price_update"]> ∅))
                  (outcomes_of [inr (KeyError (PStr "price"))]) no_script
                  (KeyError (PStr "price")) eq_refl eq_refl eq_refl eq_refl)).
Defined.

(** ** Opening and closing *)

Lemma on_close_run `{Runtime} (ws0 : WebSocketApp) (self : WebSocketClient) (w : World) :
  on_close ws0 self w
  = Run (Returns tt) (with_is_connected false self) w [EPrint "WebSocket disconnected"].
Proof. reflexivity. Qed.

Lemma on_open_run `{Runtime} (ws0 : WebSocketApp) (self : WebSocketClient) (w : World) :
  on_open ws0 self w
  = Run (Returns tt) (with_is_connected true self) w
      (EPrint "WebSocket connected"
         :: if py_truthy (wsc_token self) then
              match ws self with
              | Some app =>
                  [ESend app (json_dumps (PDict [("type", PStr "auth");
                                                 ("token", wsc_token self)]))]
              | None => [EPrint "WebSocket not connected"]
              end
            else []).
Proof.
  unfold on_open, bind, print, emit, get_self, set_self. cbn.
  destruct (py_truthy (wsc_token self)); [|reflexivity].
  rewrite send_message_run. cbn. destruct (ws self); reflexivity.
Qed.

(** X12.  Once the connection has closed, nothing is sent any more:
    [send_message] and [subscribe] print [WebSocket not connected], return
    normally and leave the client as it is, whatever the message. *)
Theorem nothing_sent_after_close `{Runtime} (ws0 : WebSocketApp) (self : WebSocketClient)
  (w : World) :
  let closed := state (on_close ws0 self w) in
  is_connected closed = false /\
  (forall message w',
      send_message message closed w'
      = Run (Returns tt) closed w' [EPrint "WebSocket not connected"]) /\
  (forall channel coin_id w',
      subscribe channel coin_id closed w'
      = Run (Returns tt) closed w' [EPrint "WebSocket not connected"]).
Proof.
  cbn zeta. rewrite on_close_run. cbn [state].
  split; [reflexivity|]. split.
  - intros message w'. rewrite send_message_run. cbn. destruct (ws self); reflexivity.
  - intros channel coin_id w'. unfold subscribe. cbn zeta. rewrite send_message_run.
    cbn. destruct (ws self); reflexivity.
Qed.


(** X14.  A client fresh from the constructor, whatever the object held
    before, has no socket and no handler: [send_message], [subscribe] and
    even [on_open] send nothing on it, and a message that is an object with
    a hashable [type] is dropped with the line [No handler for message
    type: ...]. *)
Theorem fresh_client_sends_nothing `{Runtime} (url : string) (t : pyval)
  (blank : WebSocketClient) (w : World) :
  let self := state (WebSocketClient__init__ url t blank w) in
  (forall blank' w', state (WebSocketClient__init__ url t blank' w') = self) /\
  (forall message w', sent (out (send_message message self w')) = []) /\
  (forall channel coin_id w', sent (out (subscribe channel coin_id self w')) = []) /\
  (forall ws0 w', sent (out (on_open ws0 self w')) = []) /\
  (forall ws0 message items w',
      json_loads message = inl (PDict items) ->
      py_hashable (dict_get "type" items) = true ->
      on_message_received ws0 message self w'
      = Run (Returns tt) self w'
          [EPrint ("Received message: " +:+ py_str (dict_get "type" items));
           EPrint ("No handler for message type: " +:+ py_str (dict_get "type" items))]).
Proof.
  cbn zeta. unfold WebSocketClient__init__, set_self. cbn [state].
  split; [reflexivity|]. split.
  { intros message w'. rewrite send_message_run. reflexivity. }
  split.
  { intros channel coin_id w'. unfold subscribe. cbn zeta. rewrite send_message_run.
    reflexivity. }
  split.
  { intros ws0 w'. rewrite on_open_run. cbn [ws out wsc_token].
    destruct (py_truthy t); reflexivity. }
  intros ws0 message items w' Hjson Hhash.
  rewrite (on_message_received_object ws0 message items _ w' Hjson). cbn zeta.
  rewrite Hhash. cbn [message_handlers].
  destruct (dict_get "type" items); reflexivity.
Qed.

(** A notice of the server, on a fresh client. *)
Lemma fresh_client_sends_nothing_witness :
  let notice := [("type", PStr "server_notice")] in
  let self := state (@WebSocketClient__init__ scripted "ws://localhost:3001/ws" PNone
                       (connected_client PNone ∅) no_script) in
  script_loads (script_dumps (PDict notice)) = inl (PDict notice) /\
  py_hashable (dict_get "type" notice) = true /\
  out (on_message_received (H := scripted) the_app (script_dumps (PDict notice)) self
         no_script)
  = [EPrint "Received message: server_notice";
     EPrint "No handler for message type: server_notice"].
Proof.
  cbn zeta. split; [reflexivity|]. split; [reflexivity|].
  rewrite (proj2 (proj2 (proj2 (proj2
             (fresh_client_sends_nothing (H := scripted) "ws://localhost:3001/ws" PNone
                (connected_client PNone ∅) no_script))))
             the_app (script_dumps (PDict [("type", PStr "server_notice")]))
             [("type", PStr "server_notice")] no_script eq_refl eq_refl).
  reflexivity.
Defined.

(** ** Retrying, further *)

(** X15.  With [max_retries] zero or negative the function is never
    called: [retry_with_backoff] returns [None] at once, with no effect. *)
Theorem retry_without_attempts `{Runtime} {St : Type} (func : callable)
  (max_retries base_delay : Z) (self : St) (w : World) :
  max_retries <= 0 ->
  retry_with_backoff func max_retries base_delay self w = Run (Returns PNone) self w [].
Proof.
  intros Hretries. unfold retry_with_backoff. rewrite seqZ_nil by lia. reflexivity.
Qed.

Lemma retry_without_attempts_witness :
  0 <= 0 /\
  retry_with_backoff (H := scripted) (Callable "get_coins_with_retry") 0 1 tt
    (outcomes_of [inl (PInt 5)])
  = @Run scripted _ _ (Returns PNone) tt (outcomes_of [inl (PInt 5)]) [].
Proof.
  split; [lia|].
  apply (retry_without_attempts (H := scripted)). lia.
Defined.

(** X16.  The first call decides in three cases, whatever [base_delay]
    is: when it returns, its value is returned after that single call;
    when it raises something that is no [Exception], or when
    [max_retries] is 1, what it raises is raised after that single call.
    Nothing is printed and nothing is slept. *)
Theorem retry_first_call_decides `{Runtime} {St : Type} (func : callable)
  (max_retries base_delay : Z) (self : St) (w w1 : World) (outcome : pyval + exn) :
  1 <= max_retries ->
  call func [] w = (outcome, w1) ->
  let r := retry_with_backoff func max_retries base_delay self w in
  match outcome with
  | inl v => r = Run (Returns v) self w1 [ECall func [] (inl v)]
  | inr e =>
      is_Exception e = false \/ max_retries = 1 ->
      r = Run (Raises e) self w1 [ECall func [] (inr e)]
  end.
Proof.
  intros Hretries Hcall r. subst r. unfold retry_with_backoff.
  rewrite seqZ_cons by lia. rewrite retry_attempts_cons, Hcall.
  destruct outcome as [v|e]; [reflexivity|].
  intros [He| ->].
  - rewrite He. reflexivity.
  - destruct (is_Exception e); reflexivity.
Qed.

(** One attempt only: the failure is raised without retrying. *)
Lemma retry_first_call_decides_witness :
  let down := OtherException "ConnectionError" "Connection refused" in
  1 <= 1 /\
  retry_with_backoff (H := scripted) (Callable "get_coins_with_retry") 1 1 tt
    (outcomes_of [inr down; inl (PInt 5)])
  = @Run scripted _ _ (Raises down) tt (outcomes_of [inl (PInt 5)])
      [ECall (Callable "get_coins_with_retry") [] (inr down)].
Proof.
  cbn zeta. split; [lia|].
  refine (retry_first_call_decides (H := scripted) (Callable "get_coins_with_retry") 1 1 tt
            (outcomes_of [inr (OtherException "ConnectionError" "Connection refused");
                          inl (PInt 5)])
            (outcomes_of [inl (PInt 5)])
            (inr (OtherException "ConnectionError" "Connection refused")) _ eq_refl _).
  - lia.
  - right. reflexivity.
Defined.



(** The sleeps of the failed attempts add up to a geometric sum. *)
Lemma total_sleep_failed_attempts (func : callable) (base_delay : Z) (fails : list exn) :
  forall attempt,
    1 <= attempt ->
    total_sleep (failed_attempts func base_delay attempt fails)
    = base_delay * (2 ^ (attempt - 1 + Z.of_nat (length fails)) - 2 ^ (attempt - 1)).
Proof.
  induction fails as [|e rest IH]; intros attempt Hattempt.
  - cbn [failed_attempts length]. unfold total_sleep, sleeps. cbn [flat_map fold_right].
    change (Z.of_nat 0) with 0. rewrite Z.add_0_r, Z.sub_diag. ring.
  - cbn [failed_attempts length]. unfold total_sleep in *. unfold sleeps in *.
    cbn [flat_map app fold_right]. rewrite IH by lia.
    replace (attempt + 1 - 1) with (Z.succ (attempt - 1)) by lia.
    replace (attempt - 1 + Z.of_nat (S (length rest)))
      with (Z.succ (attempt - 1) + Z.of_nat (length rest)) by lia.
    rewrite (Z.pow_succ_r 2 (attempt - 1)) by lia. ring.
Qed.

(** The sleeps of the loop, whatever [time.sleep] accepts: those of the
    attempts that failed and were slept after. *)
Lemma retry_attempts_sleeps `{Runtime} {St : Type} (func : callable)
  (max_retries base_delay : Z) (n : nat) :
  forall (attempt : Z) (self : St) (w : World),
    1 <= attempt ->
    attempt + Z.of_nat n = max_retries + 1 ->
    (0 < n)%nat ->
    exists fails,
      sleeps (out (retry_attempts func max_retries base_delay
                     (seqZ attempt (Z.of_nat n)) self w))
      = sleeps (failed_attempts func base_delay attempt fails) /\
      (length fails < n)%nat.
Proof.
  induction n as [|n IH]; intros attempt self w Hattempt Hlast Hn; [lia|].
  rewrite seqZ_cons by lia.
  replace (Z.pred (Z.of_nat (S n))) with (Z.of_nat n) by lia.
  rewrite retry_attempts_cons.
  destruct (call func [] w) as [[v|e] w1].
  - exists []. split; [reflexivity|cbn; lia].
  - destruct (is_Exception e); [|exists []; split; [reflexivity|cbn; lia]].
    destruct (Z.eqb_spec attempt max_retries) as [Heq|Hne];
      [exists []; split; [reflexivity|cbn; lia]|].
    destruct (sleep_refused (base_delay * 2 ^ (attempt - 1)));
      [exists []; split; [reflexivity|cbn; lia]|].
    destruct (IH (Z.succ attempt) self (time_sleep (base_delay * 2 ^ (attempt - 1)) w1))
      as (fails & Hsleeps & Hlen); try lia.
    destruct (retry_attempts func max_retries base_delay
                (seqZ (Z.succ attempt) (Z.of_nat n)) self
                (time_sleep (base_delay * 2 ^ (attempt - 1)) w1))
      as [r self2 w2 out2].
    cbn [out] in *. exists (e :: fails).
    cbn [failed_attempts length]. replace (attempt + 1) with (Z.succ attempt) by lia.
    unfold sleeps in *. cbn [flat_map app]. rewrite Hsleeps.
    split; [reflexivity|lia].
Qed.

(** X18.  For [max_retries >= 1] and [base_delay >= 0], the time slept in
    all is [base_delay * (2^k - 1)] for the [k] sleeps made, there are at
    most [max_retries - 1] of them, and so the function never sleeps more
    than [base_delay * (2^(max_retries - 1) - 1)] seconds in all (three
    seconds with the default arguments). *)
Theorem retry_total_sleep_bounded `{Runtime} {St : Type} (func : callable)
  (max_retries base_delay : Z) (self : St) (w : World) :
  1 <= max_retries ->
  0 <= base_delay ->
  let r := retry_with_backoff func max_retries base_delay self w in
  let k := Z.of_nat (length (sleeps (out r))) in
  total_sleep (out r) = base_delay * (2 ^ k - 1) /\
  k <= max_retries - 1 /\
  total_sleep (out r) <= base_delay * (2 ^ (max_retries - 1) - 1).
Proof.
  intros Hretries Hdelay r k. subst r k. unfold retry_with_backoff.
  destruct (retry_attempts_sleeps func max_retries base_delay (Z.to_nat max_retries)
              1 self w) as (fails & Hsleeps & Hlen); try lia.
  rewrite Z2Nat.id in Hsleeps by lia.
  unfold total_sleep. rewrite Hsleeps.
  fold (total_sleep (failed_attempts func base_delay 1 fails)).
  rewrite total_sleep_failed_attempts by lia.
  rewrite sleeps_failed_attempts, length_map, length_seq.
  replace (1 - 1 + Z.of_nat (length fails)) with (Z.of_nat (length fails)) by lia.
  replace (2 ^ (1 - 1)) with 1 by reflexivity.
  split; [reflexivity|]. split; [lia|].
  apply Z.mul_le_mono_nonneg_l; [assumption|].
  apply Z.sub_le_mono_r. apply Z.pow_le_mono_r; lia.
Qed.

(** The default arguments: at most three seconds. *)
Lemma retry_total_sleep_bounded_witness :
  let down := OtherException "ConnectionError" "Connection refused" in
  1 <= 3 /\ 0 <= 1 /\
  total_sleep (out (retry_with_backoff (H := scripted) (Callable "get_coins_with_retry")
                      3 1 tt (outcomes_of [inr down; inr down; inr down])))
  <= 3.
Proof.
  cbn zeta. split; [lia|]. split; [lia|].
  exact (proj2 (proj2 (retry_total_sleep_bounded (H := scripted)
                         (Callable "get_coins_with_retry") 3 1 tt
                         (outcomes_of
                            [inr (OtherException "ConnectionError" "Connection refused");
                             inr (OtherException "ConnectionError" "Connection refused");
                             inr (OtherException "ConnectionError" "Connection refused")])
                         ltac:(lia) ltac:(lia)))).
Defined.

(** ** Retrying a method of the API *)

(** For a callable of the caller the two loops are the same. *)
Lemma retry_attempts_with_invoke `{Runtime} {St : Type} (func : callable)
  (max_retries base_delay : Z) (attempts : list Z) :
  retry_attempts (S := St) func max_retries base_delay attempts
  = retry_attempts_with (invoke func []) max_retries base_delay attempts.
Proof.
  induction attempts as [|attempt rest IH]; [reflexivity|].
  cbn [retry_attempts retry_attempts_with]. rewrite IH. reflexivity.
Qed.





